(** * InspectAI: the proposal pricing and draft-synchronisation core

    A shallow embedding of [inspectai/src/proposalDraft.js] (normalisation,
    merging and totals of a pricing draft) and of the part of
    [inspectai/src/App.jsx] that derives the additional hood and fan
    quantities from the equipment counts.

    The program is JavaScript, so the embedding starts with the fragment
    of the language's runtime the program relies on: IEEE 754 doubles,
    strings, dynamically typed values and the built-in conversions
    [Number(v)], [String(v)], truthiness, [??], [?.] and object spread. *)

From Stdlib Require Import ZArith String Ascii List Bool Lia.
From Stdlib Require Import Floats.SpecFloat.
From stdpp Require Import gmap strings list fin_maps pretty.

#[local] Set Warnings "-register-all".
#[local] Open Scope Z_scope.

(** ** Numbers: IEEE 754 binary64 *)

Module Num.

(** A JavaScript number is a double: 53 bits of precision, infinities at
    exponent 1024.  [spec_float] is the Standard Library's executable
    specification of such numbers (a single NaN, signed zeros and
    infinities, and sign/mantissa/exponent triples). *)
Abbreviation number := spec_float.

Definition prec : Z := 53.
Definition emax : Z := 1024.

Definition add : number -> number -> number := SFadd prec emax.
Definition sub : number -> number -> number := SFsub prec emax.
Definition mul : number -> number -> number := SFmul prec emax.
Definition ltb : number -> number -> bool := SFltb.

Definition NaN : number := S754_nan.
Definition Infinity : number := S754_infinity false.

(** The double nearest to [m * 2^e] and to an integer. *)
Definition of_scaled (m e : Z) : number := binary_normalize prec emax m e false.
Definition of_Z (z : Z) : number := of_scaled z 0.

(** [Number.isFinite] on a value that is already a number. *)
Definition isFinite (x : number) : bool :=
  match x with
  | S754_zero _ | S754_finite _ _ _ => true
  | S754_infinity _ | S754_nan => false
  end.

Definition isNaN (x : number) : bool :=
  match x with S754_nan => true | _ => false end.

Definition is_zero (x : number) : bool :=
  match x with S754_zero _ => true | _ => false end.

Definition is_neg (x : number) : bool :=
  match x with
  | S754_zero s | S754_infinity s | S754_finite s _ _ => s
  | S754_nan => false
  end.

Definition eq_dec (x y : number) : {x = y} + {x <> y}.
Proof.
  decide equality; solve [apply Z.eq_dec | apply Pos.eq_dec | apply Bool.bool_dec].
Defined.

(** [Object.is] on two numbers: NaN is NaN, and +0 is not -0; this is
    equality of representations. *)
Definition same (x y : number) : bool := if eq_dec x y then true else false.

(** [Math.max(a, b)]: NaN if either is NaN, and +0 is larger than -0. *)
Definition max (a b : number) : number :=
  match SFcompare a b with
  | None => NaN
  | Some Lt => b
  | Some Gt => a
  | Some Eq => if is_neg a then b else a
  end.

(** *** Decimal literals

    [of_decimal neg m e] is the double nearest to [(-1)^neg * m * 10^e]
    (ties to even), as StringToNumber and numeric literals require.  For
    a negative exponent the quotient is computed with 64 or more
    significant bits and a sticky last bit, which rounds as the exact
    quotient does. *)
Definition signed (neg : bool) (m : Z) : Z := if neg then - m else m.

Definition of_ratio (neg : bool) (num den : Z) : number :=
  let k := Z.max 0 (64 + Z.log2 den - Z.log2 num) in
  let n := num * 2 ^ k in
  let q := n / den in
  let sticky := if n mod den =? 0 then 0 else 1 in
  binary_normalize prec emax (signed neg (2 * q + sticky)) (- k - 1) neg.

Definition decimal_digits (m : Z) : Z := Z.of_nat (String.length (pretty m)).

Definition of_decimal (neg : bool) (m e : Z) : number :=
  if m =? 0 then S754_zero neg
  else if 310 <? e then S754_infinity neg
  else if e + decimal_digits m <? -330 then S754_zero neg
  else if 0 <=? e then binary_normalize prec emax (signed neg (m * 10 ^ e)) 0 neg
  else of_ratio neg m (10 ^ (- e)).

End Num.

Export Num(number).

(** ** Strings *)

Module Str.

(** A string is a sequence of code units; the model keeps the code units
    below 256.  White space, as [trim] and StringToNumber strip it, is
    TAB, LF, VT, FF, CR, SPACE and NO-BREAK SPACE. *)
Definition is_ws (c : ascii) : bool :=
  let n := N_of_ascii c in
  ((9 <=? n) && (n <=? 13) || (n =? 32) || (n =? 160))%N.

Fixpoint drop_ws (l : list ascii) : list ascii :=
  match l with
  | c :: t => if is_ws c then drop_ws t else l
  | [] => []
  end.

Fixpoint drop_ws_end (l : list ascii) : list ascii :=
  match l with
  | c :: t =>
      match drop_ws_end t with
      | [] => if is_ws c then [] else [c]
      | t' => c :: t'
      end
  | [] => []
  end.

Definition trim_list (l : list ascii) : list ascii := drop_ws_end (drop_ws l).

(** [s.trim()] *)
Definition trim (s : string) : string :=
  string_of_list_ascii (trim_list (list_ascii_of_string s)).


Definition lower (c : ascii) : ascii :=
  let n := N_of_ascii c in
  if ((65 <=? n) && (n <=? 90) || (192 <=? n) && (n <=? 222) && negb (n =? 215))%N
  then ascii_of_N (n + 32) else c.

(** [s.toLowerCase()] *)
Fixpoint toLowerCase (s : string) : string :=
  match s with
  | EmptyString => EmptyString
  | String c t => String (lower c) (toLowerCase t)
  end.

Definition eqb (s t : string) : bool := String.eqb s t.

(** [l.join(sep)] for strings already converted. *)
Fixpoint join (sep : string) (l : list string) : string :=
  match l with
  | [] => EmptyString
  | [s] => s
  | s :: t => s +:+ sep +:+ join sep t
  end.

(** *** StringToNumber *)

Definition digit (radix : Z) (c : ascii) : option Z :=
  let n := Z.of_N (N_of_ascii c) in
  let d := if (48 <=? n) && (n <=? 57) then n - 48
           else if (97 <=? n) && (n <=? 102) then n - 87
           else if (65 <=? n) && (n <=? 70) then n - 55
           else 99 in
  if d <? radix then Some d else None.

(** The longest prefix of digits: its value, its length, and the rest. *)
Fixpoint digits (radix : Z) (l : list ascii) (acc : Z) (len : Z)
  : Z * Z * list ascii :=
  match l with
  | c :: t =>
      match digit radix c with
      | Some d => digits radix t (radix * acc + d) (len + 1)
      | None => (acc, len, l)
      end
  | [] => (acc, len, [])
  end.

Definition sign (l : list ascii) : bool * list ascii :=
  match l with
  | "-"%char :: t => (true, t)
  | "+"%char :: t => (false, t)
  | _ => (false, l)
  end.

(** ExponentPart, when present and well formed; otherwise nothing is
    consumed. *)
Definition exponent (l : list ascii) : Z * list ascii :=
  match l with
  | c :: t =>
      if (N_of_ascii c =? 101)%N || (N_of_ascii c =? 69)%N then
        let '(neg, t') := sign t in
        let '(v, len, rest) := digits 10 t' 0 0 in
        if 0 <? len then (Num.signed neg v, rest) else (0, l)
      else (0, l)
  | [] => (0, l)
  end.

(** StrUnsignedDecimalLiteral other than [Infinity]: digits, an optional
    fraction and an optional exponent, with a digit on at least one side
    of the point. *)
Definition decimal (neg : bool) (l : list ascii) : number :=
  let '(ip, ilen, r1) := digits 10 l 0 0 in
  let '(m, flen, r2) :=
    match r1 with
    | "."%char :: t => digits 10 t ip 0
    | _ => (ip, 0, r1)
    end in
  if (ilen + flen =? 0) then Num.NaN
  else
    let '(e, r3) := exponent r2 in
    match r3 with
    | [] => Num.of_decimal neg m (e - flen)
    | _ => Num.NaN
    end.

Definition radix_literal (radix : Z) (l : list ascii) : number :=
  match digits radix l 0 0 with
  | (v, len, []) => if 0 <? len then Num.of_Z v else Num.NaN
  | _ => Num.NaN
  end.

Definition parse (l : list ascii) : number :=
  match l with
  | [] => S754_zero false
  | "0"%char :: ("x" | "X")%char :: t => radix_literal 16 t
  | "0"%char :: ("o" | "O")%char :: t => radix_literal 8 t
  | "0"%char :: ("b" | "B")%char :: t => radix_literal 2 t
  | _ =>
      let '(neg, t) := sign l in
      if eqb (string_of_list_ascii t) "Infinity" then S754_infinity neg
      else decimal neg t
  end.

(** [Number(s)] for a string [s]. *)
Definition to_number (s : string) : number :=
  parse (trim_list (list_ascii_of_string s)).

(** *** Number::toString

    The shortest decimal [s * 10^(n-k)], [s] of [k] digits, that reads
    back as the same double, the nearest to it when two of that length
    do.  [n10 num den] is the [n] with [10^(n-1) <= num/den < 10^n]. *)
Definition n10 (num den : Z) : Z :=
  if den <=? num then Num.decimal_digits (num / den)
  else 1 - Num.decimal_digits (den / num).

Definition canon (m : positive) (e : Z) : number := Num.of_scaled (Zpos m) e.

Fixpoint shortest (fuel : nat) (k : Z) (x : number) (num den n : Z) : Z * Z :=
  let sn := if 0 <=? k - n then num * 10 ^ (k - n) else num in
  let sd := if 0 <=? k - n then den else den * 10 ^ (n - k) in
  let lo := sn / sd in
  let hi := lo + 1 in
  let ok c := Num.same (Num.of_decimal false c (n - k)) x in
  let pick c := if c =? 10 ^ k then (10 ^ (k - 1), n + 1) else (c, n) in
  match fuel with
  | O => pick lo
  | S fuel' =>
      match ok lo, ok hi with
      | true, false => pick lo
      | false, true => pick hi
      | true, true =>
          match 2 * sn ?= (2 * lo + 1) * sd with
          | Lt => pick lo
          | Gt => pick hi
          | Eq => if Z.even lo then pick lo else pick hi
          end
      | false, false => shortest fuel' (k + 1) x num den n
      end
  end.

Definition zeros (n : Z) : string :=
  string_of_list_ascii (repeat "0"%char (Z.to_nat n)).

Definition format (s n : Z) : string :=
  let ds : string := pretty s in
  let k := Z.of_nat (String.length ds) in
  if (k <=? n) && (n <=? 21) then ds +:+ zeros (n - k)
  else if (0 <? n) && (n <=? 21) then
    substring 0 (Z.to_nat n) ds +:+ "." +:+ substring (Z.to_nat n) (Z.to_nat (k - n)) ds
  else if (-6 <? n) && (n <=? 0) then "0." +:+ zeros (- n) +:+ ds
  else
    let e := n - 1 in
    let es := (if e <? 0 then "-" else "+") +:+ pretty (Z.abs e) in
    if k =? 1 then ds +:+ "e" +:+ es
    else substring 0 1 ds +:+ "." +:+ substring 1 (Z.to_nat (k - 1)) ds +:+ "e" +:+ es.

(** [String(x)] for a number [x]. *)
Definition of_number (x : number) : string :=
  match x with
  | S754_nan => "NaN"
  | S754_zero _ => "0"
  | S754_infinity s => if s then "-Infinity" else "Infinity"
  | S754_finite s m e =>
      let num := if 0 <=? e then Zpos m * 2 ^ e else Zpos m in
      let den := if 0 <=? e then 1 else 2 ^ (- e) in
      let '(d, n) := shortest 17 1 (canon m e) num den (n10 num den) in
      (if s then "-" else EmptyString) +:+ format d n
  end.

End Str.

(** ** Values and the built-in conversions *)

Module JS.

(** Dynamically typed data: what [JSON.parse] and component state hold,
    with [undefined] and the non-finite numbers.  An object is a plain
    record, a finite map from property names to values: it has no accessors
    and no [toString], [valueOf] or [__proto__] entry of its own, so it
    converts to a primitive through the inherited
    [Object.prototype.toString], and assigning to one of its keys stores an
    own property.  The order of the keys plays no part in what follows. *)
Inductive value : Type :=
| VUndef
| VNull
| VBool (b : bool)
| VNum (x : number)
| VStr (s : string)
| VArr (l : list value)
| VObj (m : gmap string value).

(** Exceptions the program can raise: reading a property of [null] or
    [undefined]. *)
Inductive exn := TypeError.

Inductive result (A : Type) : Type :=
| Ok (a : A)
| Throw (e : exn).
Arguments Ok {A} a.
Arguments Throw {A} e.

#[export] Instance result_ret : MRet result := fun A a => Ok a.
#[export] Instance result_bind : MBind result := fun A B f r =>
  match r with
  | Ok a => f a
  | Throw e => Throw e
  end.

(** Monadic left-to-right reduction: [l.reduce(f, init)] for a callback
    that may throw. *)
Fixpoint reduce {A B : Type} (f : B -> A -> result B) (l : list A) (init : B)
  : result B :=
  match l with
  | [] => Ok init
  | a :: t => acc ← f init a; reduce f t acc
  end.

Definition num (z : Z) : value := VNum (Num.of_Z z).
Definition str0 : value := VStr EmptyString.

(** [typeof v === "object"] *)
Definition typeof_object (v : value) : bool :=
  match v with
  | VNull | VArr _ | VObj _ => true
  | _ => false
  end.

(** [Array.isArray(v)] *)
Definition isArray (v : value) : bool :=
  match v with VArr _ => true | _ => false end.

(** ToBoolean *)
Definition truthy (v : value) : bool :=
  match v with
  | VUndef | VNull => false
  | VBool b => b
  | VNum x => negb (Num.is_zero x || Num.isNaN x)
  | VStr s => negb (Str.eqb s EmptyString)
  | VArr _ | VObj _ => true
  end.

(** [v == null] *)
Definition nullish (v : value) : bool :=
  match v with VUndef | VNull => true | _ => false end.

(** [v === undefined] and [v === ""] *)
Definition is_undefined (v : value) : bool :=
  match v with VUndef => true | _ => false end.

Definition is_empty_string (v : value) : bool :=
  match v with VStr s => Str.eqb s EmptyString | _ => false end.

(** [a || b] and [a ?? b] *)
Definition or (a b : value) : value := if truthy a then a else b.
Definition coalesce (a b : value) : value := if nullish a then b else a.

(** [String(v)]; an array joins its elements with commas, [null] and
    [undefined] elements as empty strings. *)
Fixpoint to_string (v : value) : string :=
  match v with
  | VUndef => "undefined"
  | VNull => "null"
  | VBool b => if b then "true" else "false"
  | VNum x => Str.of_number x
  | VStr s => s
  | VArr l =>
      Str.join ","
        (map (fun e => if nullish e then EmptyString else to_string e) l)
  | VObj _ => "[object Object]"
  end.

(** [Number(v)]; arrays and objects convert through their string. *)
Definition to_number (v : value) : number :=
  match v with
  | VUndef => Num.NaN
  | VNull => S754_zero false
  | VBool b => if b then Num.of_Z 1 else S754_zero false
  | VNum x => x
  | VStr s => Str.to_number s
  | VArr _ | VObj _ => Str.to_number (to_string v)
  end.

(** [v < x] for a number [x]: the left side is converted to a number. *)
Definition lt_number (v : value) (x : number) : bool :=
  Num.ltb (to_number v) x.

(** The own enumerable properties, as [{...v}] and [Object.entries(v)]
    see them: the entries of an object, the elements of an array and
    the characters of a string under their indices. *)
Definition indexed (l : list value) : gmap string value :=
  list_to_map (imap (fun i e => (pretty i, e)) l).

Definition chars (s : string) : list value :=
  map (fun c => VStr (String c EmptyString)) (list_ascii_of_string s).

Definition own (v : value) : gmap string value :=
  match v with
  | VObj m => m
  | VArr l => indexed l
  | VStr s => indexed (chars s)
  | _ => ∅
  end.

Definition length_of (v : value) : option nat :=
  match v with
  | VArr l => Some (length l)
  | VStr s => Some (String.length s)
  | _ => None
  end.

(** [v.k] for a [v] that is neither [null] nor [undefined].  The names
    the program reads are not defined on the built-in prototypes, so
    apart from [length] only own properties are found. *)
Definition prop (v : value) (k : string) : value :=
  match length_of v with
  | Some n => if Str.eqb k "length" then num (Z.of_nat n) else default VUndef (own v !! k)
  | None => default VUndef (own v !! k)
  end.

(** [v.k], which throws on [null] and [undefined], and [v?.k]. *)
Definition get (v : value) (k : string) : result value :=
  if nullish v then Throw TypeError else Ok (prop v k).

Definition get_opt (v : value) (k : string) : value :=
  if nullish v then VUndef else prop v k.

(** An object literal. *)
Definition obj (l : list (string * value)) : value := VObj (list_to_map l).

End JS.

Export JS(value, VUndef, VNull, VBool, VNum, VStr, VArr, VObj, result, Ok, Throw, TypeError).

(** ** proposalDraft.js *)

Module Draft.
Import JS.

(** Default unit rates used when not specified. *)
Module DEFAULT.
Definition baseRate : number := Num.of_Z 723.
Definition additionalHoodRate : number := Num.of_Z 203.
Definition additionalFanRate : number := Num.of_Z 203.
Definition stdFilterRate : number := Num.of_Z 8.
Definition nonStdFilterRate : number := Num.of_decimal false 135 (-1).
Definition fuelSurcharge : number := Num.of_Z 46.
End DEFAULT.

Definition DEFAULT_RATES : gmap string value :=
  list_to_map
    [("baseRate", VNum DEFAULT.baseRate);
     ("additionalHoodRate", VNum DEFAULT.additionalHoodRate);
     ("additionalFanRate", VNum DEFAULT.additionalFanRate);
     ("stdFilterRate", VNum DEFAULT.stdFilterRate);
     ("nonStdFilterRate", VNum DEFAULT.nonStdFilterRate);
     ("fuelSurcharge", VNum DEFAULT.fuelSurcharge)].

Definition safeNum (v : value) : number :=
  let x := to_number v in
  if Num.isFinite x then x else Num.of_Z 0.

Definition orDefault (val : value) (def : number) : number :=
  let n := to_number val in
  if Num.isFinite n then n else def.

(** The callback of the [map] of the array tier. *)
Definition additionalItem (defaultFreq a : value) : value :=
  obj [("description", VStr (to_string (coalesce (get_opt a "description") str0)));
       ("qty", VNum (safeNum (get_opt a "qty")));
       ("rate", VNum (orDefault (get_opt a "rate") DEFAULT.additionalHoodRate));
       ("frequency",
         or (VStr (Str.trim (to_string (coalesce (get_opt a "frequency") defaultFreq))))
            defaultFreq)].

(** An entry rebuilt from the legacy flat fields. *)
Definition legacyItem (description : string) (qty rate : value) (def : number)
    (frequency : value) : value :=
  obj [("description", VStr description);
       ("qty", VNum (safeNum qty));
       ("rate", VNum (orDefault rate def));
       ("frequency", frequency)].

Definition placeholderItem (defaultFreq : value) : value :=
  obj [("description", VStr "Additional Hood");
       ("qty", num 0);
       ("rate", VNum DEFAULT.additionalHoodRate);
       ("frequency", defaultFreq)].

(** Normalize additional items (hoods/fans) to an array of
    [{ description, qty, rate, frequency }]. *)
Definition normalizeAdditionalItems (draft : value) : result (list value) :=
  let defaultFreq := or (get_opt draft "cleaningFrequency") str0 in
  additionalItems ← get draft "additionalItems";
  match additionalItems with
  | VArr ((_ :: _) as l) => Ok (map (additionalItem defaultFreq) l)
  | _ =>
      let frequency :=
        or (or (prop draft "additionalFrequency") (prop draft "cleaningFrequency"))
           defaultFreq in
      let items := [] in
      let items :=
        if negb (nullish (prop draft "additionalHoodQty"))
           || negb (nullish (prop draft "additionalHoodRate"))
        then items ++ [legacyItem "Additional Hood" (prop draft "additionalHoodQty")
                         (prop draft "additionalHoodRate") DEFAULT.additionalHoodRate
                         frequency]
        else items in
      let items :=
        if negb (nullish (prop draft "additionalFanQty"))
           || negb (nullish (prop draft "additionalFanRate"))
        then items ++ [legacyItem "Additional Fan" (prop draft "additionalFanQty")
                         (prop draft "additionalFanRate") DEFAULT.additionalFanRate
                         frequency]
        else items in
      match items with
      | _ :: _ => Ok items
      | [] => Ok [placeholderItem defaultFreq]
      end
  end.

Definition repair (description amount : value) : value :=
  obj [("description", VStr (to_string (coalesce description str0)));
       ("amount", VNum (safeNum amount))].

(** Normalize repairs to an array of [{ description, amount }]. *)
Definition normalizeRepairs (draft : value) : result (list value) :=
  repairs ← get draft "repairs";
  match repairs with
  | VArr ((_ :: _) as l) =>
      Ok (map (fun r => repair (get_opt r "description") (get_opt r "amount")) l)
  | _ =>
      if negb (nullish (prop draft "repairDescription"))
         || negb (nullish (prop draft "repairRate"))
      then Ok [repair (prop draft "repairDescription") (prop draft "repairRate")]
      else Ok [obj [("description", str0); ("amount", num 0)]]
  end.

(** [if (d.k == null || d.k === "") d.k = DEFAULT_RATES.k] *)
Definition defaultRate (k : string) (d : gmap string value) : gmap string value :=
  let v := prop (VObj d) k in
  if nullish v || is_empty_string v then <[k := prop (VObj DEFAULT_RATES) k]> d else d.

(** [if (d.k == null || d.k < 1) d.k = 1] *)
Definition atLeastOne (k : string) (d : gmap string value) : gmap string value :=
  let v := prop (VObj d) k in
  if nullish v || lt_number v (Num.of_Z 1) then <[k := num 1]> d else d.

(** Apply default rates to a draft when values are missing. *)
Definition applyDefaults (draft : value) : result value :=
  if negb (truthy draft) || negb (typeof_object draft) then Ok (VObj DEFAULT_RATES)
  else
    let d := own draft in
    let d := defaultRate "baseRate" d in
    let d := defaultRate "additionalHoodRate" d in
    let d := defaultRate "additionalFanRate" d in
    let d := defaultRate "stdFilterRate" d in
    let d := defaultRate "nonStdFilterRate" d in
    let d := defaultRate "fuelSurcharge" d in
    repairs ← normalizeRepairs (VObj d);
    let d := <["repairs" := VArr repairs]> d in
    additionalItems ← normalizeAdditionalItems (VObj d);
    let d := <["additionalItems" := VArr additionalItems]> d in
    let d := atLeastOne "initialHoodQty" d in
    let d := atLeastOne "initialFanQty" d in
    Ok (VObj d).

(** Merge only defined keys from incoming into prev. *)
Definition mergeDraft (prev incoming : value) : value :=
  let out := own (or prev (VObj ∅)) in
  if negb (truthy incoming) || negb (typeof_object incoming) then VObj out
  else
    VObj (map_fold (fun k v out => if is_undefined v then out else <[k := v]> out)
            out (own incoming)).

Record totals := {
  baseRate : number;
  addHood : number;
  addFan : number;
  mainServiceSubtotal : number;
  repairsSubtotal : number;
  filtersSubtotal : number;
  fuelSubtotal : number;
  totalPerService : number;
}.

(** The two [reduce] callbacks of [computeTotals]. *)
Definition addItem (sum : number) (a : value) : result number :=
  qty ← get a "qty";
  rate ← get a "rate";
  Ok (Num.add sum (Num.mul (safeNum qty) (orDefault rate DEFAULT.additionalHoodRate))).

Definition addRepair (sum : number) (r : value) : result number :=
  amount ← get r "amount";
  Ok (Num.add sum (safeNum amount)).

Definition computeTotals (draft : value) : result totals :=
  let baseRate := orDefault (get_opt draft "baseRate") DEFAULT.baseRate in
  let stdRate := orDefault (get_opt draft "stdFilterRate") DEFAULT.stdFilterRate in
  let nonStdRate := orDefault (get_opt draft "nonStdFilterRate") DEFAULT.nonStdFilterRate in
  let fuelRate := orDefault (get_opt draft "fuelSurcharge") DEFAULT.fuelSurcharge in
  items ← get draft "additionalItems";
  additionalItems ←
    match items with
    | VArr l => Ok l
    | _ => normalizeAdditionalItems (or draft (VObj ∅))
    end;
  additionalSubtotal ← reduce addItem additionalItems (Num.of_Z 0);
  let mainServiceSubtotal := Num.add baseRate additionalSubtotal in
  reps ← get draft "repairs";
  repairs ←
    match reps with
    | VArr l => Ok l
    | _ => normalizeRepairs (or draft (VObj ∅))
    end;
  repairsSubtotal ← reduce addRepair repairs (Num.of_Z 0);
  let filtersSubtotal :=
    Num.add (Num.mul (safeNum (prop draft "stdFilterQty")) stdRate)
            (Num.mul (safeNum (prop draft "nonStdFilterQty")) nonStdRate) in
  let fuelSubtotal := fuelRate in
  let totalPerService :=
    Num.add (Num.add (Num.add mainServiceSubtotal repairsSubtotal) filtersSubtotal)
            fuelSubtotal in
  Ok {| baseRate := baseRate;
        addHood := additionalSubtotal;
        addFan := Num.of_Z 0;
        mainServiceSubtotal := mainServiceSubtotal;
        repairsSubtotal := repairsSubtotal;
        filtersSubtotal := filtersSubtotal;
        fuelSubtotal := fuelSubtotal;
        totalPerService := totalPerService |}.

End Draft.

(** ** App.jsx: the inspection form's derived quantities *)

Module App.
Import JS Draft.

(** The part of the component state that the equipment counts, the
    storage listener and the derived-quantity effect read or write. *)
Record form := {
  hoods : number;
  fans : number;
  filters : number;
  cleaningFrequency : value;
  additionalItems : list value;
  stdFilterQty : value;
  filterExchangeQty : value;
  pricingTouched : bool;
}.

(** [Number.parseInt(v, 10)] and the component's [toInt]. *)
Definition parseInt10 (s : string) : number :=
  let '(neg, t) := Str.sign (Str.drop_ws (list_ascii_of_string s)) in
  let '(v, len, _) := Str.digits 10 t 0 0 in
  if len =? 0 then Num.NaN else Num.of_decimal neg v 0.

Definition toInt (v : string) : number :=
  let n := parseInt10 v in
  if Num.isFinite n then n else Num.of_Z 0.

(** [Number(v) || 0] *)
Definition numberOr0 (v : value) : number :=
  let x := to_number v in
  if truthy (VNum x) then x else Num.of_Z 0.

(** The predicate of [findIndex] and [find]:
    [String(x.description || "").trim().toLowerCase() === name].  The
    entries searched are the objects [normalizeAdditionalItems] built. *)
Definition isNamed (name : string) (x : value) : bool :=
  Str.eqb (Str.toLowerCase (Str.trim (to_string (or (prop x "description") str0)))) name.

(** [l.findIndex(p)], with [None] for -1. *)
Fixpoint findIndex (p : value -> bool) (l : list value) : option nat :=
  match l with
  | [] => None
  | x :: t => if p x then Some O else S <$> findIndex p t
  end.

(** [items[i] = { ...items[i], qty }] for an index [findIndex] returned. *)
Definition setQty (i : option nat) (qty : number) (items : list value) : list value :=
  match i with
  | Some i =>
      match items !! i with
      | Some x => <[i := VObj (<["qty" := VNum qty]> (own x))]> items
      | None => items
      end
  | None => items
  end.

(** The updater passed to [setAdditionalItems] by the effect. *)
Definition deriveItems (hoods fans : number) (cleaningFrequency : value)
    (prev : list value) : result (list value) :=
  items ← normalizeAdditionalItems
             (obj [("additionalItems", VArr prev);
                   ("cleaningFrequency", cleaningFrequency)]);
  let wantHood := Num.max (Num.sub hoods (Num.of_Z 1)) (Num.of_Z 0) in
  let wantFan := Num.max (Num.sub fans (Num.of_Z 1)) (Num.of_Z 0) in
  let idxHood := findIndex (isNamed "additional hood") items in
  let idxFan := findIndex (isNamed "additional fan") items in
  let items := setQty idxHood wantHood items in
  let items := setQty idxFan wantFan items in
  Ok items.

(** The effect with dependencies
    [hoods, fans, filters, pricingTouched, cleaningFrequency]. *)
Definition deriveQuantities (s : form) : result form :=
  items ← deriveItems (hoods s) (fans s) (cleaningFrequency s) (additionalItems s);
  Ok {| hoods := hoods s;
        fans := fans s;
        filters := filters s;
        cleaningFrequency := cleaningFrequency s;
        additionalItems := items;
        stdFilterQty := if pricingTouched s then stdFilterQty s else VNum (filters s);
        filterExchangeQty :=
          if pricingTouched s then filterExchangeQty s else VNum (filters s);
        pricingTouched := pricingTouched s |}.

(** The values of [useState] at mount. *)
Definition initial : form :=
  {| hoods := Num.of_Z 1;
     fans := Num.of_Z 1;
     filters := Num.of_Z 0;
     cleaningFrequency := str0;
     additionalItems :=
       [obj [("description", VStr "Additional Hood"); ("qty", num 0);
             ("rate", VNum DEFAULT.additionalHoodRate); ("frequency", str0)];
        obj [("description", VStr "Additional Fan"); ("qty", num 0);
             ("rate", VNum DEFAULT.additionalFanRate); ("frequency", str0)]];
     stdFilterQty := num 0;
     filterExchangeQty := num 0;
     pricingTouched := false |}.

(** [l.find(p)?.qty] *)
Definition foundQty (name : string) (l : list value) : value :=
  match findIndex (isNamed name) l with
  | Some i => match l !! i with Some x => prop x "qty" | None => VUndef end
  | None => VUndef
  end.

(** The state updates of the [storage] listener for a parsed [incoming]
    draft.  The listener first reads [incoming.restaurantName], which
    throws on [null]; no setter has run by then. *)
Definition onStorage (incoming : value) (s : form) : result form :=
  _ ← get incoming "restaurantName";
  let cf := prop incoming "cleaningFrequency" in
  let cleaningFrequency' := if is_undefined cf then cleaningFrequency s else cf in
  let filters' :=
    if is_undefined (prop incoming "filters") then filters s
    else numberOr0 (prop incoming "filters") in
  '(items', hoods', fans') ←
    match prop incoming "additionalItems" with
    | VArr l =>
        normalized ← normalizeAdditionalItems
                        (obj [("additionalItems", VArr l); ("cleaningFrequency", cf)]);
        let addHood := numberOr0 (foundQty "additional hood" normalized) in
        let addFan := numberOr0 (foundQty "additional fan" normalized) in
        Ok (normalized, Num.add (Num.of_Z 1) addHood, Num.add (Num.of_Z 1) addFan)
    | _ =>
        if negb (nullish (prop incoming "additionalHoodQty"))
           || negb (nullish (prop incoming "additionalFanQty"))
           || negb (nullish (prop incoming "additionalHoodRate"))
           || negb (nullish (prop incoming "additionalFanRate"))
        then
          items ← normalizeAdditionalItems incoming;
          let addH := numberOr0 (prop incoming "additionalHoodQty") in
          let addF := numberOr0 (prop incoming "additionalFanQty") in
          Ok (items, Num.add (Num.of_Z 1) addH, Num.add (Num.of_Z 1) addF)
        else Ok (additionalItems s, hoods s, fans s)
    end;
  Ok {| hoods := hoods';
        fans := fans';
        filters := filters';
        cleaningFrequency := cleaningFrequency';
        additionalItems := items';
        stdFilterQty :=
          if is_undefined (prop incoming "stdFilterQty") then stdFilterQty s
          else prop incoming "stdFilterQty";
        filterExchangeQty :=
          if is_undefined (prop incoming "filterExchangeQty") then filterExchangeQty s
          else prop incoming "filterExchangeQty";
        pricingTouched := true |}.

(** [Object.is] on a state value and the value a setter received: equal
    primitives are the same, and an array or object that [JSON.parse]
    has just built is a new one. *)
Definition sameValue (old new : value) : bool :=
  match old, new with
  | VUndef, VUndef | VNull, VNull => true
  | VBool a, VBool b => Bool.eqb a b
  | VNum x, VNum y => Num.same x y
  | VStr a, VStr b => Str.eqb a b
  | _, _ => false
  end.

Inductive event :=
| ChangeHoods (text : string)
| ChangeFans (text : string)
| ChangeFilters (text : string)
| Storage (incoming : value).

Definition withCounts (hoods' fans' filters' : number) (s : form) : form :=
  {| hoods := hoods'; fans := fans'; filters := filters';
     cleaningFrequency := cleaningFrequency s;
     additionalItems := additionalItems s;
     stdFilterQty := stdFilterQty s;
     filterExchangeQty := filterExchangeQty s;
     pricingTouched := pricingTouched s |}.

(** The handler of an event. *)
Definition handle (e : event) (s : form) : result form :=
  match e with
  | ChangeHoods text =>
      Ok (withCounts (Num.max (Num.of_Z 1) (toInt text)) (fans s) (filters s) s)
  | ChangeFans text =>
      Ok (withCounts (hoods s) (Num.max (Num.of_Z 1) (toInt text)) (filters s) s)
  | ChangeFilters text => Ok (withCounts (hoods s) (fans s) (toInt text) s)
  | Storage incoming => onStorage incoming s
  end.

(** Whether a dependency of the effect changed between two renders. *)
Definition depsChanged (e : event) (s s' : form) : bool :=
  negb (Num.same (hoods s) (hoods s'))
  || negb (Num.same (fans s) (fans s'))
  || negb (Num.same (filters s) (filters s'))
  || negb (Bool.eqb (pricingTouched s) (pricingTouched s'))
  || match e with
     | Storage incoming =>
         let cf := prop incoming "cleaningFrequency" in
         negb (is_undefined cf) && negb (sameValue (cleaningFrequency s) cf)
     | _ => false
     end.

(** One event: its handler, then the effect when a dependency changed. *)
Definition step (e : event) (s : form) : result form :=
  s' ← handle e s;
  if depsChanged e s s' then deriveQuantities s' else Ok s'.

(** The states the form goes through: the effect runs once at mount,
    then events follow. *)
Inductive reachable : form -> Prop :=
| reach_mount s : deriveQuantities initial = Ok s -> reachable s
| reach_step e s s' : reachable s -> step e s = Ok s' -> reachable s'.

(** The quantity of the system-managed entry of a given name. *)
Definition qtyOf (name : string) (s : form) : value :=
  foundQty name (additionalItems s).

End App.

(** ** Concrete drafts and states *)

Module Scenario.
Import JS Draft App.

(** The draft of the totals scenario. *)
Definition totalsDraft : value :=
  obj [("baseRate", num 723);
       ("additionalItems", VArr [obj [("qty", num 2); ("rate", num 203)]]);
       ("stdFilterQty", num 4);
       ("stdFilterRate", num 8);
       ("nonStdFilterQty", num 0);
       ("nonStdFilterRate", VNum (Num.of_decimal false 135 (-1)));
       ("fuelSurcharge", num 46);
       ("repairs", VArr [])].

(** A draft in the legacy flat shape. *)
Definition legacyDraft : value :=
  obj [("additionalHoodQty", num 1);
       ("additionalHoodRate", num 200);
       ("additionalFanQty", num 0)].


(** A draft whose cleaning frequency carries surrounding blanks and whose
    only item leaves its own frequency empty. *)
Definition paddedDraft : value :=
  obj [("cleaningFrequency", VStr " Monthly ");
       ("additionalItems", VArr [obj [("frequency", str0)]])].

(** One hood entry and one fan entry. *)
Definition hoodAndFan : value :=
  obj [("additionalItems",
         VArr [obj [("description", VStr "Additional Hood"); ("qty", num 2);
                    ("rate", num 203)];
               obj [("description", VStr "Additional Fan"); ("qty", num 3);
                    ("rate", num 100)]])].

(** The form after mount, after a pricing edit arrived from the proposal
    preview, and after the hood count was then changed to 5. *)
Definition mounted : result form := deriveQuantities initial.
Definition touched : result form :=
  s ← mounted; step (Storage (obj [("baseRate", num 800)])) s.
Definition touchedThenFive : result form :=
  s ← touched; step (ChangeHoods "5") s.

Definition stateOf (r : result form) : form :=
  match r with
  | Ok s => s
  | Throw _ => initial
  end.

Definition mountedState : form := stateOf mounted.
Definition touchedState : form := stateOf touched.
Definition fiveState : form := stateOf touchedThenFive.

(** The system-managed entry of a name is absent, or its quantity is
    [max(count - 1, 0)]. *)
Definition derivedQty (name : string) (count : number) (s : form) : Prop :=
  findIndex (isNamed name) (additionalItems s) = None
  \/ qtyOf name s = VNum (Num.max (Num.sub count (Num.of_Z 1)) (Num.of_Z 0)).

(** An event of the two count fields that feed the additional items. *)
Definition isCountChange (e : event) : bool :=
  match e with
  | ChangeHoods _ | ChangeFans _ => true
  | _ => false
  end.

End Scenario.

(** ** The contract, in the words of the specification *)

Module Spec.
Import JS Draft.

(** The line total [qty_i * rate_i] of an additional item, after the
    tolerant coercion of both factors. *)
Definition lineTotal (a : value) : number :=
  Num.mul (safeNum (prop a "qty")) (orDefault (prop a "rate") DEFAULT.additionalHoodRate).

(** The sum of the line totals over all additional items, accumulated from
    left to right starting at 0. *)
Definition additionalSubtotal (items : list value) : number :=
  fold_left (fun sum a => Num.add sum (lineTotal a)) items (Num.of_Z 0).

(** The additional items of a draft: its array when it has one, the
    normalised items otherwise. *)
Definition itemsOf (draft : value) : result (list value) :=
  match prop draft "additionalItems" with
  | VArr l => Ok l
  | _ => normalizeAdditionalItems (or draft (VObj ∅))
  end.







(** The two placeholders. *)
Definition emptyRepair : value := obj [("description", str0); ("amount", num 0)].


(** The six rate fields that [applyDefaults] fills. *)
Definition rateFields : list string :=
  ["baseRate"; "additionalHoodRate"; "additionalFanRate"; "stdFilterRate";
   "nonStdFilterRate"; "fuelSurcharge"].

(** The six defaulting statements of [applyDefaults], in order. *)
Abbreviation withRates d :=
  (defaultRate "fuelSurcharge"
    (defaultRate "nonStdFilterRate"
      (defaultRate "stdFilterRate"
        (defaultRate "additionalFanRate"
          (defaultRate "additionalHoodRate" (defaultRate "baseRate" d)))))).

(** What triggers the defaulting of a rate field: [null], [undefined]
    (also of a missing field) and the empty string. *)
Definition unset (v : value) : bool := nullish v || is_empty_string v.


(** Entries in the canonical shape: a repair is a string and a finite
    amount; an additional item is a string, a finite quantity, a finite
    rate and a frequency that normalising again against the default
    frequency [dF] leaves alone. *)
Definition isRepair (r : value) : Prop :=
  exists s x, r = obj [("description", VStr s); ("amount", VNum x)]
              /\ Num.isFinite x = true.



(** A value other than [null] and [undefined]. *)
Definition defined (a : value) : Prop := nullish a = false.



End Spec.

(** ** proposalDraft.js: reading the stored draft *)

Module Store.
Import JS Draft.

(** What [localStorage.getItem(DRAFT_KEY)] does: it throws when storage is
    blocked, returns [null] when the key is missing, and its text
    otherwise. *)
Inductive slot :=
| Blocked
| Missing
| Holds (text : string).

Section Parse.

(** [JSON.parse], with [None] for a [SyntaxError]. *)
Variable parse : string -> option value.

(** [JSON.parse(localStorage.getItem(DRAFT_KEY) || "{}")], with [None] when
    either call throws. *)
Definition stored (s : slot) : option value :=
  match s with
  | Blocked => None
  | Missing => parse "{}"
  | Holds text => parse (if Str.eqb text EmptyString then "{}" else text)
  end.

(** [try { return applyDefaults(raw) } catch { return applyDefaults({}) }] *)
Definition readDraft (s : slot) : result value :=
  match stored s with
  | Some raw =>
      match applyDefaults raw with
      | Ok d => Ok d
      | Throw _ => applyDefaults (obj [])
      end
  | None => applyDefaults (obj [])
  end.

End Parse.

End Store.

(** ** App.jsx: the draft the form publishes *)

Module Publish.
Import JS Draft App.


(** The local [num]: the number, or [undefined] when it is not finite. *)
Definition num (v : value) : value :=
  let x := to_number v in
  if Num.isFinite x then VNum x else VUndef.





Section Save.
Variable parse : string -> option value.


End Save.

End Publish.

(** ** ProposalPreview.jsx: editing the draft *)

Module Preview.
Import JS Draft.

(** [{ description: "", amount: 0 }] *)
Definition blankRepair : value := obj [("description", str0); ("amount", num 0)].

(** [list[idx]] and [list[idx] = x]: an index inside the array replaces the
    entry, the length appends, and an index beyond it leaves holes, which
    read as [undefined]. *)
Definition entryAt (idx : nat) (l : list value) : value := default VUndef (l !! idx).

Definition assign (idx : nat) (x : value) (l : list value) : list value :=
  if (idx <? length l)%nat then <[idx := x]> l
  else l ++ replicate (idx - length l) VUndef ++ [x].

(** [{ ...list[idx], [field]: v }] stored at [idx]. *)
Definition setField (idx : nat) (field : string) (v : value) (l : list value)
  : list value :=
  assign idx (VObj (<[field := v]> (own (entryAt idx l)))) l.

(** [set(key)(val)] *)
Definition set (key : string) (val p : value) : value := VObj (<[key := val]> (own p)).

Definition addRepair (p : value) : result value :=
  reps ← normalizeRepairs p;
  Ok (VObj (<["repairs" := VArr (reps ++ [blankRepair])]> (own p))).

Definition updateRepair (idx : nat) (field : string) (val p : value) : result value :=
  list ← normalizeRepairs p;
  let v := if Str.eqb field "amount" then val else VStr (to_string val) in
  Ok (VObj (<["repairs" := VArr (setField idx field v list)]> (own p))).

Definition removeRepair (idx : nat) (p : value) : result value :=
  reps ← normalizeRepairs p;
  let list := delete idx reps in
  Ok (VObj (<["repairs" := VArr match list with
                                | _ :: _ => list
                                | [] => [blankRepair]
                                end]> (own p))).



Definition updateAdditionalItem (idx : nat) (field : string) (val p : value)
  : result value :=
  list ← normalizeAdditionalItems p;
  let v := if Str.eqb field "qty" || Str.eqb field "rate"
           then VNum (App.numberOr0 val) else VStr (to_string val) in
  Ok (VObj (<["additionalItems" := VArr (setField idx field v list)]> (own p))).


Section Listener.

Variable parse : string -> option value.

(** The string [formatDateMMDDYY()] returns at the time of the call. *)
Variable today : string.

(** [{ ...d, proposalDate: d.proposalDate || formatDateMMDDYY() }] for an
    object [d]. *)
Definition dated (d : value) : value :=
  VObj (<["proposalDate" := or (prop d "proposalDate") (VStr today)]> (own d)).


(** The [storage] listener: the next [draft] for an event whose
    [newValue] is [null] or a text. *)
Definition onStorage (newValue : option string) (prev : value) : value :=
  let incoming :=
    match newValue with
    | None => Some (VObj ∅)
    | Some text => if Str.eqb text EmptyString then Some (VObj ∅) else parse text
    end in
  let caught := VObj (<["proposalDate" := VStr today]> (own prev)) in
  match incoming with
  | Some raw =>
      match applyDefaults (or raw (VObj ∅)) with
      | Ok inc => dated inc
      | Throw _ => caught
      end
  | None => caught
  end.

End Listener.

End Preview.

(** ** Shapes and field lists used by the properties below *)

Module Shape.
Import JS Draft Spec.





(** The properties [computeTotals] and the normalisers it calls read. *)
Definition pricedFields : list string :=
  ["baseRate"; "stdFilterRate"; "nonStdFilterRate"; "fuelSurcharge"; "additionalItems";
   "repairs"; "stdFilterQty"; "nonStdFilterQty"; "cleaningFrequency";
   "additionalFrequency"; "additionalHoodQty"; "additionalHoodRate"; "additionalFanQty";
   "additionalFanRate"; "repairDescription"; "repairRate"].


(** What a rate of the totals is read from: [null] and the empty string,
    which [applyDefaults] replaces and [orDefault] reads as 0. *)
Definition nullOrEmpty (v : value) : bool :=
  match v with
  | VNull => true
  | VStr s => Str.eqb s EmptyString
  | _ => false
  end.

(** The draft [applyDefaults] makes of the empty object: the default
    rates, one empty repair, an "Additional Hood" and an "Additional Fan"
    entry of quantity 0, and both initial quantities 1. *)
Definition blankDraft : value :=
  VObj (<["initialHoodQty" := num 1]>
         (<["initialFanQty" := num 1]>
           (<["additionalItems" :=
                VArr [obj [("description", VStr "Additional Hood"); ("qty", num 0);
                           ("rate", VNum DEFAULT.additionalHoodRate);
                           ("frequency", str0)];
                      obj [("description", VStr "Additional Fan"); ("qty", num 0);
                           ("rate", VNum DEFAULT.additionalFanRate);
                           ("frequency", str0)]]]>
             (<["repairs" := VArr [emptyRepair]]> DEFAULT_RATES)))).

(** What [mergeDraft] sees of its arguments: [{ ...(prev || {}) }], and
    the entries of [incoming] that its loop visits, none when [incoming]
    is falsy or not an object. *)
Definition spread (prev : value) : gmap string value := own (or prev (VObj ∅)).

Definition entries (incoming : value) : gmap string value :=
  if negb (truthy incoming) || negb (typeof_object incoming) then ∅ else own incoming.

End Shape.

(** * Properties *)

(** ** Rounding never invents a NaN *)

Module NumFacts.
Import Num.

Section Shift.
Variables prec emax : Z.

Lemma iter_pos_preserves {A : Type} (P : A -> Prop) (f : A -> A) :
  (forall a, P a -> P (f a)) -> forall p a, P a -> P (SpecFloat.iter_pos f p a).
Proof.
  intros Hf p. induction p as [p IH | p IH | ]; intros a Ha; simpl; auto.
Qed.

Lemma shr_1_nonneg mrs : 0 <= shr_m mrs -> 0 <= shr_m (shr_1 mrs).
Proof.
  destruct mrs as [m r s]. simpl.
  destruct m as [ | [p | p | ] | [p | p | ]]; simpl; lia.
Qed.

Lemma shr_fexp_nonneg m e l :
  0 <= m -> 0 <= shr_m (fst (shr_fexp prec emax m e l)).
Proof.
  intros Hm. unfold shr_fexp, shr.
  assert (H0 : 0 <= shr_m (shr_record_of_loc m l)).
  { destruct l as [ | [ | | ]]; simpl; assumption. }
  destruct (fexp prec emax (Zdigits2 m + e) - e); simpl; try assumption.
  apply (iter_pos_preserves (fun r => 0 <= shr_m r)); auto using shr_1_nonneg.
Qed.

Lemma round_nearest_even_nonneg m l : 0 <= m -> 0 <= round_nearest_even m l.
Proof.
  intros Hm. destruct l as [ | [ | | ]]; simpl; try lia.
  destruct (Z.even m); lia.
Qed.

Lemma binary_round_aux_not_nan sx m e l :
  0 <= m -> binary_round_aux prec emax sx m e l <> S754_nan.
Proof.
  intros Hm. unfold binary_round_aux.
  pose proof (shr_fexp_nonneg m e l Hm) as H1.
  destruct (shr_fexp prec emax m e l) as [mrs' e']. simpl in H1.
  pose proof (shr_fexp_nonneg _ e' loc_Exact
                (round_nearest_even_nonneg _ (loc_of_shr_record mrs') H1)) as H2.
  destruct (shr_fexp prec emax _ e' loc_Exact) as [mrs'' e'']. simpl in H2.
  destruct (shr_m mrs''); try lia; try discriminate.
  destruct (e'' <=? emax - prec); discriminate.
Qed.

End Shift.

(** A product of finite numbers is finite or infinite, never NaN. *)
Lemma mul_finite_not_nan x y :
  isFinite x = true -> isFinite y = true -> isNaN (mul x y) = false.
Proof.
  intros Hx Hy.
  destruct x as [sx | sx | | sx mx ex]; try discriminate;
    destruct y as [sy | sy | | sy my ey]; try discriminate; try reflexivity.
  unfold mul, SFmul.
  pose proof (binary_round_aux_not_nan prec emax (xorb sx sy)
                (Z.pos (mx * my)) (ex + ey) loc_Exact ltac:(lia)) as H.
  destruct (binary_round_aux _ _ _ _ _ _); congruence || reflexivity.
Qed.



End NumFacts.

(** ** The runtime fragment *)

Module JSFacts.
Import JS.

Lemma bind_Ok {A B : Type} (m : result A) (f : A -> result B) (b : B) :
  (m ≫= f) = Ok b -> exists a, m = Ok a /\ f a = Ok b.
Proof. destruct m as [a | e]; simpl; [eauto | discriminate]. Qed.

Lemma prop_obj (m : gmap string value) k : prop (VObj m) k = default VUndef (m !! k).
Proof. reflexivity. Qed.

Lemma prop_own v k : k <> "length" -> prop v k = default VUndef (own v !! k).
Proof.
  intros Hk. unfold prop.
  destruct (length_of v); [ | reflexivity].
  unfold Str.eqb. destruct (String.eqb_spec k "length"); [contradiction | reflexivity].
Qed.

Lemma prop_insert_eq (m : gmap string value) k v : prop (VObj (<[k := v]> m)) k = v.
Proof. rewrite prop_obj, lookup_insert_eq. reflexivity. Qed.

Lemma prop_insert_ne (m : gmap string value) k k' v :
  k <> k' -> prop (VObj (<[k := v]> m)) k' = prop (VObj m) k'.
Proof. intros Hk. rewrite !prop_obj, lookup_insert_ne by assumption. reflexivity. Qed.

Lemma get_Ok v k : nullish v = false -> get v k = Ok (prop v k).
Proof. intros H. unfold get. rewrite H. reflexivity. Qed.

Lemma get_Ok_inv v k w : get v k = Ok w -> nullish v = false /\ w = prop v k.
Proof. unfold get. destruct (nullish v); [discriminate | ]. intros [= <-]. auto. Qed.

Lemma get_opt_prop v k : nullish v = false -> get_opt v k = prop v k.
Proof. intros H. unfold get_opt. rewrite H. reflexivity. Qed.


End JSFacts.

(** ** Coercions *)

Module CoerceFacts.
Import JS Draft.

Lemma safeNum_finite v : Num.isFinite (safeNum v) = true.
Proof.
  unfold safeNum. destruct (Num.isFinite (to_number v)) eqn:E; [exact E | reflexivity].
Qed.

Lemma orDefault_finite v def :
  Num.isFinite def = true -> Num.isFinite (orDefault v def) = true.
Proof.
  intros Hd. unfold orDefault.
  destruct (Num.isFinite (to_number v)) eqn:E; [exact E | exact Hd].
Qed.

Lemma safeNum_number x : Num.isFinite x = true -> safeNum (VNum x) = x.
Proof. intros H. unfold safeNum. simpl. rewrite H. reflexivity. Qed.

Lemma orDefault_number x def : Num.isFinite x = true -> orDefault (VNum x) def = x.
Proof. intros H. unfold orDefault. simpl. rewrite H. reflexivity. Qed.

Lemma safeNum_idem v : safeNum (VNum (safeNum v)) = safeNum v.
Proof. apply safeNum_number, safeNum_finite. Qed.

Lemma orDefault_idem v def :
  Num.isFinite def = true -> orDefault (VNum (orDefault v def)) def = orDefault v def.
Proof. intros H. apply orDefault_number, orDefault_finite, H. Qed.

End CoerceFacts.

(** ** Trimming *)

Module StrFacts.
Import Str.







Lemma eqb_eq s t : eqb s t = true <-> s = t.
Proof. apply String.eqb_eq. Qed.

End StrFacts.

(** ** normalizeAdditionalItems and normalizeRepairs *)

Module Normalize.
Import JS Draft Spec JSFacts CoerceFacts.

Lemma obj_defined l : defined (obj l).
Proof. reflexivity. Qed.

Lemma map_defined (f : value -> value) l :
  (forall a, defined (f a)) -> Forall defined (map f l).
Proof. intros Hf. induction l; simpl; constructor; auto. Qed.

(** On a draft that is not [null] or [undefined] the normalisers return,
    and what they return is a non-empty list of objects. *)
Lemma normalizeAdditionalItems_returns draft :
  nullish draft = false ->
  exists items, normalizeAdditionalItems draft = Ok items
                /\ items <> [] /\ Forall defined items.
Proof.
  intros Hn. unfold normalizeAdditionalItems. rewrite (get_Ok _ _ Hn).
  cbn [mbind result_bind].
  destruct (prop draft "additionalItems") as [ | | b | x | s | [ | a l] | m];
    try (destruct (negb _ || negb _); destruct (negb _ || negb _);
         eexists; (split; [reflexivity | ]); cbn [app];
         (split; [discriminate | ]); repeat constructor).
  eexists. split; [reflexivity | ]. split; [discriminate | ].
  apply map_defined. intros; apply obj_defined.
Qed.

Lemma normalizeRepairs_returns draft :
  nullish draft = false ->
  exists reps, normalizeRepairs draft = Ok reps
               /\ reps <> [] /\ Forall defined reps.
Proof.
  intros Hn. unfold normalizeRepairs. rewrite (get_Ok _ _ Hn).
  cbn [mbind result_bind].
  destruct (prop draft "repairs") as [ | | b | x | s | [ | a l] | m];
    try (destruct (negb _ || negb _);
         eexists; (split; [reflexivity | ]); cbn [app];
         (split; [discriminate | ]); repeat constructor).
  eexists. split; [reflexivity | ]. split; [discriminate | ].
  apply map_defined. intros; apply obj_defined.
Qed.

(** *** Canonical entries are fixed points of the normalisers *)

(** Split a [Forall] over an explicit list into one goal per entry. *)
Ltac each_entry :=
  repeat lazymatch goal with
    | |- Forall _ (_ :: _) => apply Forall_cons_2
    | |- Forall _ [] => apply Forall_nil_2
    end.

Lemma Forall_map_all {A B : Type} (P : B -> Prop) (f : A -> B) l :
  (forall a, P (f a)) -> Forall P (map f l).
Proof. intros Hf. induction l; simpl; constructor; auto. Qed.

Lemma map_fixed {A : Type} (f : A -> A) l : Forall (fun a => f a = a) l -> map f l = l.
Proof. induction 1 as [ | a l Ha _ IH]; simpl; [reflexivity | rewrite Ha, IH; reflexivity]. Qed.

Lemma repair_isRepair a b : isRepair (repair a b).
Proof. eexists _, _. split; [reflexivity | apply safeNum_finite]. Qed.

Lemma repair_fixed r :
  isRepair r -> repair (get_opt r "description") (get_opt r "amount") = r.
Proof.
  intros (s & x & -> & Hx). unfold repair.
  change (get_opt (obj [("description", VStr s); ("amount", VNum x)]) "description")
    with (VStr s).
  change (get_opt (obj [("description", VStr s); ("amount", VNum x)]) "amount")
    with (VNum x).
  rewrite (safeNum_number x Hx). reflexivity.
Qed.

Lemma normalizeRepairs_canonical draft :
  nullish draft = false ->
  exists reps, normalizeRepairs draft = Ok reps /\ reps <> [] /\ Forall isRepair reps.
Proof.
  intros Hn. unfold normalizeRepairs. rewrite (get_Ok _ _ Hn).
  cbn [mbind result_bind].
  assert (Hp : isRepair (obj [("description", str0); ("amount", num 0)])).
  { exists EmptyString, (Num.of_Z 0). split; reflexivity. }
  destruct (prop draft "repairs") as [ | | b | x | s | [ | a l] | m];
    try (destruct (negb _ || negb _);
         eexists; (split; [reflexivity | ]); (split; [discriminate | ]);
         each_entry;
         lazymatch goal with
         | |- isRepair (repair _ _) => apply repair_isRepair
         | |- _ => exact Hp
         end).
  eexists. split; [reflexivity | ]. split; [discriminate | ].
  apply Forall_map_all. intros; apply repair_isRepair.
Qed.

Lemma normalizeRepairs_fixed_at (d : gmap string value) reps :
  prop (VObj d) "repairs" = VArr reps -> reps <> [] -> Forall isRepair reps ->
  normalizeRepairs (VObj d) = Ok reps.
Proof.
  intros Hp Hne Hall. unfold normalizeRepairs. rewrite (get_Ok (VObj d)) by reflexivity.
  cbn [mbind result_bind]. rewrite Hp.
  destruct reps as [ | r reps]; [contradiction | ].
  f_equal. apply map_fixed.
  eapply Forall_impl; [exact Hall | intros a; apply repair_fixed].
Qed.












(** C7.  The legacy-shaped draft
    [{additionalHoodQty: 1, additionalHoodRate: 200, additionalFanQty: 0}],
    which has no [additionalItems] array, normalises to an array that holds
    an "Additional Hood" entry of quantity 1 and rate 200 (followed by the
    fan entry the third field calls for); [applyDefaults] stores that array
    under [additionalItems]. *)
Theorem legacy_shape_fallback :
  let hood := obj [("description", VStr "Additional Hood"); ("qty", num 1);
                   ("rate", num 200); ("frequency", str0)] in
  let fan := obj [("description", VStr "Additional Fan"); ("qty", num 0);
                  ("rate", num 203); ("frequency", str0)] in
  normalizeAdditionalItems Scenario.legacyDraft = Ok [hood; fan]
  /\ In hood [hood; fan]
  /\ exists d, applyDefaults Scenario.legacyDraft = Ok d
               /\ prop d "additionalItems" = VArr [hood; fan].
Proof.
  intros hood fan. split; [vm_compute; reflexivity | ].
  split; [left; reflexivity | ].
  eexists. split; [reflexivity | vm_compute; reflexivity].
Qed.

End Normalize.

(** ** computeTotals *)

Module Totals.
Import JS Draft Spec JSFacts CoerceFacts.

Lemma reduce_addItem l : forall init r,
  reduce addItem l init = Ok r ->
  Forall (fun a => nullish a = false) l
  /\ r = fold_left (fun sum a => Num.add sum (lineTotal a)) l init.
Proof.
  induction l as [ | a l IH]; intros init r H; simpl in H.
  - injection H as <-. split; [constructor | reflexivity].
  - apply bind_Ok in H as (acc & Ha & H).
    unfold addItem in Ha.
    apply bind_Ok in Ha as (q & Hq & Ha). apply bind_Ok in Ha as (rt & Hr & Ha).
    apply get_Ok_inv in Hq as [Hn ->]. apply get_Ok_inv in Hr as [_ ->].
    injection Ha as <-.
    destruct (IH _ _ H) as [Hl ->]. split; [constructor; assumption | reflexivity].
Qed.



(** C2.  On the draft of the totals scenario, [computeTotals] returns an
    additional-items subtotal of 406, a main service subtotal of 1129, a
    filters subtotal of 32, a fuel subtotal of 46, a repairs subtotal of 0
    and a total per service of 1207. *)
Theorem computeTotals_scenario :
  computeTotals Scenario.totalsDraft =
  Ok {| baseRate := Num.of_Z 723;
        addHood := Num.of_Z 406;
        addFan := Num.of_Z 0;
        mainServiceSubtotal := Num.of_Z 1129;
        repairsSubtotal := Num.of_Z 0;
        filtersSubtotal := Num.of_Z 32;
        fuelSubtotal := Num.of_Z 46;
        totalPerService := Num.of_Z 1207 |}.
Proof. vm_compute. reflexivity. Qed.

(** C10.  Whenever [computeTotals] returns, the [addFan] field is 0 and the
    [addHood] field is the whole additional-items subtotal: the sum of
    [qty * rate] over all additional items of the draft, whatever their
    description, so that a fan entry adds its line total to [addHood]. *)
Theorem computeTotals_addHood_addFan draft t :
  computeTotals draft = Ok t ->
  addFan t = Num.of_Z 0
  /\ (exists items, itemsOf draft = Ok items /\ addHood t = additionalSubtotal items)
  /\ (forall items a, additionalSubtotal (items ++ [a])
                      = Num.add (additionalSubtotal items) (lineTotal a)).
Proof.
  intros H. unfold computeTotals in H.
  apply bind_Ok in H as (ai & Hai & H). apply get_Ok_inv in Hai as [Hn ->].
  apply bind_Ok in H as (items & Hitems & H).
  apply bind_Ok in H as (sub & Hsub & H).
  apply bind_Ok in H as (rp & _ & H).
  apply bind_Ok in H as (reps & _ & H).
  apply bind_Ok in H as (rsub & _ & H).
  injection H as <-. simpl.
  split; [reflexivity | split].
  - exists items. split; [exact Hitems | ].
    apply reduce_addItem in Hsub as [_ ->]. reflexivity.
  - intros items' a. unfold additionalSubtotal. rewrite fold_left_app. reflexivity.
Qed.

Lemma computeTotals_addHood_addFan_witness :
  let t := {| baseRate := Num.of_Z 723;
              addHood := Num.of_Z 706;
              addFan := Num.of_Z 0;
              mainServiceSubtotal := Num.of_Z 1429;
              repairsSubtotal := Num.of_Z 0;
              filtersSubtotal := Num.of_Z 0;
              fuelSubtotal := Num.of_Z 46;
              totalPerService := Num.of_Z 1475 |} in
  addFan t = Num.of_Z 0
  /\ (exists items, itemsOf Scenario.hoodAndFan = Ok items
                    /\ addHood t = additionalSubtotal items)
  /\ (forall items a, additionalSubtotal (items ++ [a])
                      = Num.add (additionalSubtotal items) (lineTotal a)).
Proof.
  intros t. apply (computeTotals_addHood_addFan Scenario.hoodAndFan t).
  vm_compute. reflexivity.
Defined.





Lemma computeTotals_throws_on_null_entry :
  computeTotals (obj [("additionalItems", VArr [VNull])]) = Throw TypeError.
Proof. vm_compute. reflexivity. Qed.




End Totals.

(** ** applyDefaults *)

Module Defaults.
Import JS Draft Spec JSFacts CoerceFacts Normalize.

Lemma lookup_defaultRate_ne k k' (d : gmap string value) :
  k <> k' -> defaultRate k d !! k' = d !! k'.
Proof.
  intros Hk. unfold defaultRate.
  destruct (nullish _ || is_empty_string _); [apply lookup_insert_ne, Hk | reflexivity].
Qed.

Lemma lookup_atLeastOne_ne k k' (d : gmap string value) :
  k <> k' -> atLeastOne k d !! k' = d !! k'.
Proof.
  intros Hk. unfold atLeastOne.
  destruct (nullish _ || lt_number _ _); [apply lookup_insert_ne, Hk | reflexivity].
Qed.

Lemma prop_defaultRate_eq k (d : gmap string value) :
  prop (VObj (defaultRate k d)) k
  = if unset (prop (VObj d) k) then prop (VObj DEFAULT_RATES) k else prop (VObj d) k.
Proof.
  unfold defaultRate, unset.
  destruct (nullish _ || is_empty_string _); [apply prop_insert_eq | reflexivity].
Qed.


(** Peel the assignments that do not touch the property read. *)
Ltac peel :=
  repeat first
    [ rewrite lookup_atLeastOne_ne by discriminate
    | rewrite lookup_insert_ne by discriminate
    | rewrite lookup_defaultRate_ne by discriminate ].



(** The shape of [applyDefaults] on an object or an array. *)
Lemma applyDefaults_object draft :
  truthy draft = true -> typeof_object draft = true ->
  exists reps items,
    normalizeRepairs (VObj (withRates (own draft))) = Ok reps
    /\ normalizeAdditionalItems
         (VObj (<["repairs" := VArr reps]> (withRates (own draft)))) = Ok items
    /\ applyDefaults draft
       = Ok (VObj (atLeastOne "initialFanQty"
                    (atLeastOne "initialHoodQty"
                      (<["additionalItems" := VArr items]>
                        (<["repairs" := VArr reps]> (withRates (own draft))))))).
Proof.
  intros Ht Ho.
  destruct (Normalize.normalizeRepairs_returns (VObj (withRates (own draft))) eq_refl)
    as (reps & Hr & _).
  destruct (Normalize.normalizeAdditionalItems_returns
              (VObj (<["repairs" := VArr reps]> (withRates (own draft)))) eq_refl)
    as (items & Hi & _).
  exists reps, items. split; [exact Hr | ]. split; [exact Hi | ].
  unfold applyDefaults. rewrite Ht, Ho. cbn [negb orb].
  rewrite Hr. cbn [mbind result_bind]. rewrite Hi. reflexivity.
Qed.


(** C9.  On every input that is not an object ([undefined], [null], a
    boolean, a number, a string) [applyDefaults] returns exactly a copy of
    [DEFAULT_RATES]: the six rate fields and nothing else, so no
    [additionalItems], [repairs], [initialHoodQty] or [initialFanQty]. *)
Theorem applyDefaults_non_object :
  applyDefaults VUndef = Ok (VObj DEFAULT_RATES)
  /\ applyDefaults VNull = Ok (VObj DEFAULT_RATES)
  /\ (forall b, applyDefaults (VBool b) = Ok (VObj DEFAULT_RATES))
  /\ (forall x, applyDefaults (VNum x) = Ok (VObj DEFAULT_RATES))
  /\ (forall s, applyDefaults (VStr s) = Ok (VObj DEFAULT_RATES))
  /\ (forall k, is_Some (DEFAULT_RATES !! k) <-> k ∈ rateFields)
  /\ DEFAULT_RATES !! "baseRate" = Some (num 723)
  /\ DEFAULT_RATES !! "additionalHoodRate" = Some (num 203)
  /\ DEFAULT_RATES !! "additionalFanRate" = Some (num 203)
  /\ DEFAULT_RATES !! "stdFilterRate" = Some (num 8)
  /\ DEFAULT_RATES !! "nonStdFilterRate" = Some (VNum (Num.of_decimal false 135 (-1)))
  /\ DEFAULT_RATES !! "fuelSurcharge" = Some (num 46)
  /\ DEFAULT_RATES !! "additionalItems" = None
  /\ DEFAULT_RATES !! "repairs" = None
  /\ DEFAULT_RATES !! "initialHoodQty" = None
  /\ DEFAULT_RATES !! "initialFanQty" = None.
Proof.
  repeat apply conj; try reflexivity.
  - intros b. unfold applyDefaults. destruct b; reflexivity.
  - intros x. unfold applyDefaults. simpl typeof_object. rewrite orb_true_r. reflexivity.
  - intros s. unfold applyDefaults. simpl typeof_object. rewrite orb_true_r. reflexivity.
  - intros k. split.
    + unfold DEFAULT_RATES, rateFields. cbn [list_to_map foldr fst snd curry].
      rewrite !lookup_insert. repeat (case_decide; [subst; intros _; repeat constructor | ]).
      rewrite lookup_empty. intros [x Hx]. discriminate.
    + unfold rateFields. rewrite !elem_of_cons, elem_of_nil.
      intros [-> | [-> | [-> | [-> | [-> | [-> | []]]]]]]; eexists; reflexivity.
Qed.

Lemma prop_withRates k (d : gmap string value) :
  k ∈ rateFields ->
  prop (VObj (withRates d)) k
  = if unset (prop (VObj d) k) then prop (VObj DEFAULT_RATES) k else prop (VObj d) k.
Proof.
  unfold rateFields. rewrite !elem_of_cons, elem_of_nil.
  intros [-> | [-> | [-> | [-> | [-> | [-> | []]]]]]];
    rewrite (prop_obj (defaultRate _ _)); peel;
    match goal with
    | |- default VUndef (defaultRate ?k ?m !! ?k) = _ =>
        change (default VUndef (defaultRate k m !! k)) with (prop (VObj (defaultRate k m)) k)
    end;
    rewrite prop_defaultRate_eq, (prop_obj (defaultRate _ _)) || rewrite prop_defaultRate_eq;
    peel; reflexivity.
Qed.



(** A rate field of the result of [applyDefaults] on an object. *)
Lemma applyDefaults_rate k (d : gmap string value) :
  k ∈ rateFields ->
  exists d', applyDefaults (VObj d) = Ok (VObj d')
    /\ prop (VObj d') k
       = if unset (prop (VObj d) k) then prop (VObj DEFAULT_RATES) k else prop (VObj d) k.
Proof.
  intros Hk.
  destruct (applyDefaults_object (VObj d) eq_refl eq_refl) as (reps & items & _ & _ & H).
  eexists. split; [exact H | ].
  rewrite <- (prop_withRates k d Hk). rewrite !prop_obj. f_equal.
  revert Hk. unfold rateFields. rewrite !elem_of_cons, elem_of_nil.
  intros [-> | [-> | [-> | [-> | [-> | [-> | []]]]]]];
    rewrite !lookup_atLeastOne_ne, !lookup_insert_ne by discriminate; reflexivity.
Qed.





(** *** Normal forms are fixed points *)





(** *** The result of the first pass is in normal form *)








(** It also fails on an object whose default frequency carries blanks: the
    first application copies [" Monthly "] into the item, the second trims
    it. *)
Lemma applyDefaults_twice_on_padded :
  exists d1 d2, applyDefaults Scenario.paddedDraft = Ok d1 /\ applyDefaults d1 = Ok d2
    /\ get_opt (prop d1 "additionalItems") "0" <> get_opt (prop d2 "additionalItems") "0"
    /\ prop (get_opt (prop d1 "additionalItems") "0") "frequency" = VStr " Monthly "
    /\ prop (get_opt (prop d2 "additionalItems") "0") "frequency" = VStr "Monthly".
Proof.
  eexists _, _. split; [reflexivity | ]. split; [vm_compute; reflexivity | ].
  split; [ | split; vm_compute; reflexivity].
  intros H.
  apply (f_equal (fun v => prop v "frequency")) in H. vm_compute in H. discriminate H.
Qed.

End Defaults.

(** ** mergeDraft *)

Module Merge.
Import JS Draft Spec JSFacts.

Lemma mergeDraft_lookup (prev incoming : gmap string value) :
  exists out, mergeDraft (VObj prev) (VObj incoming) = VObj out
    /\ forall k, out !! k = match incoming !! k with
                            | Some v => if is_undefined v then prev !! k else Some v
                            | None => prev !! k
                            end.
Proof.
  unfold mergeDraft. cbn [or truthy typeof_object negb orb own].
  eexists. split; [reflexivity | ].
  apply (map_fold_weak_ind
           (fun (r : gmap string value) (m : gmap string value) =>
              forall k, r !! k = match m !! k with
                                 | Some v => if is_undefined v then prev !! k else Some v
                                 | None => prev !! k
                                 end)).
  - intros k. rewrite lookup_empty. reflexivity.
  - intros i x m r Hi IH k. destruct (decide (i = k)) as [-> | Hne].
    + rewrite lookup_insert_eq. destruct (is_undefined x).
      * rewrite IH, Hi. reflexivity.
      * apply lookup_insert_eq.
    + rewrite (lookup_insert_ne m) by exact Hne. destruct (is_undefined x).
      * apply IH.
      * rewrite lookup_insert_ne by exact Hne. apply IH.
Qed.



End Merge.

(** ** The derived quantities of the form *)

Module Derived.
Import JS Draft Spec JSFacts App Scenario.

Lemma same_refl x : Num.same x x = true.
Proof. unfold Num.same. destruct (Num.eq_dec x x); [reflexivity | contradiction]. Qed.

Lemma prop_setQty_description x q :
  prop (VObj (<["qty" := q]> (own x))) "description" = prop x "description".
Proof.
  rewrite prop_insert_ne by discriminate.
  rewrite prop_obj, (prop_own x "description") by discriminate. reflexivity.
Qed.

Lemma isNamed_setQty name x q :
  isNamed name (VObj (<["qty" := q]> (own x))) = isNamed name x.
Proof. unfold isNamed. rewrite prop_setQty_description. reflexivity. Qed.

Lemma isNamed_exclusive x :
  isNamed "additional hood" x = true -> isNamed "additional fan" x = false.
Proof.
  unfold isNamed. intros H. apply String.eqb_eq in H. unfold Str.eqb. rewrite H. reflexivity.
Qed.

Lemma findIndex_lookup p l : forall i,
  findIndex p l = Some i -> exists x, l !! i = Some x /\ p x = true.
Proof.
  induction l as [ | y l IH]; simpl; intros i H; [discriminate | ].
  destruct (p y) eqn:Hy.
  - injection H as <-. eauto.
  - destruct (findIndex p l) as [j | ]; [ | discriminate].
    injection H as <-. destruct (IH j eq_refl) as (x & Hx & Hp). eauto.
Qed.

Lemma findIndex_insert p l : forall i x x',
  l !! i = Some x -> p x' = p x -> findIndex p (<[i := x']> l) = findIndex p l.
Proof.
  induction l as [ | y l IH]; intros i x x' Hl Hp; [reflexivity | ].
  destruct i as [ | i]; simpl in *.
  - injection Hl as ->. rewrite Hp. reflexivity.
  - rewrite (IH i x x' Hl Hp). reflexivity.
Qed.

Lemma findIndex_setQty name i q l :
  findIndex (isNamed name) (setQty i q l) = findIndex (isNamed name) l.
Proof.
  unfold setQty. destruct i as [i | ]; [ | reflexivity].
  destruct (l !! i) as [x | ] eqn:Hx; [ | reflexivity].
  apply (findIndex_insert _ _ _ x); [exact Hx | apply isNamed_setQty].
Qed.

Lemma foundQty_setQty_same name q l i :
  findIndex (isNamed name) l = Some i -> foundQty name (setQty (Some i) q l) = VNum q.
Proof.
  intros Hi. unfold foundQty. rewrite findIndex_setQty, Hi.
  destruct (findIndex_lookup _ _ _ Hi) as (x & Hx & _).
  unfold setQty. rewrite Hx.
  rewrite list_lookup_insert_eq by (eapply lookup_lt_Some; exact Hx).
  apply prop_insert_eq.
Qed.

Lemma foundQty_setQty_other name q l i j :
  findIndex (isNamed name) l = Some i -> i <> j ->
  foundQty name (setQty (Some j) q l) = foundQty name l.
Proof.
  intros Hi Hne. unfold foundQty. rewrite findIndex_setQty, Hi.
  unfold setQty. destruct (l !! j) as [y | ]; [ | reflexivity].
  rewrite list_lookup_insert_ne by congruence. reflexivity.
Qed.

(** The updater of the effect: the first entry named "Additional Hood"
    gets [max(hoods - 1, 0)] and the first named "Additional Fan" gets
    [max(fans - 1, 0)], whatever they held. *)
Lemma deriveItems_quantities hoods fans cf prev :
  exists items, deriveItems hoods fans cf prev = Ok items
    /\ (findIndex (isNamed "additional hood") items = None
        \/ foundQty "additional hood" items
           = VNum (Num.max (Num.sub hoods (Num.of_Z 1)) (Num.of_Z 0)))
    /\ (findIndex (isNamed "additional fan") items = None
        \/ foundQty "additional fan" items
           = VNum (Num.max (Num.sub fans (Num.of_Z 1)) (Num.of_Z 0))).
Proof.
  unfold deriveItems.
  destruct (Normalize.normalizeAdditionalItems_returns
              (obj [("additionalItems", VArr prev); ("cleaningFrequency", cf)]) eq_refl)
    as (items & -> & _).
  cbn [mbind result_bind]. eexists. split; [reflexivity | ].
  set (wH := Num.max (Num.sub hoods (Num.of_Z 1)) (Num.of_Z 0)).
  set (wF := Num.max (Num.sub fans (Num.of_Z 1)) (Num.of_Z 0)).
  destruct (findIndex (isNamed "additional hood") items) as [i | ] eqn:Hh;
    destruct (findIndex (isNamed "additional fan") items) as [j | ] eqn:Hf.
  - assert (Hne : i <> j).
    { intros <-. destruct (findIndex_lookup _ _ _ Hh) as (x & Hx & Hp).
      destruct (findIndex_lookup _ _ _ Hf) as (y & Hy & Hq).
      rewrite Hx in Hy. injection Hy as <-.
      rewrite (isNamed_exclusive x Hp) in Hq. discriminate. }
    split; right.
    + rewrite (foundQty_setQty_other _ wF _ i j)
        by (rewrite ?findIndex_setQty; assumption).
      apply foundQty_setQty_same, Hh.
    + apply foundQty_setQty_same. rewrite findIndex_setQty. exact Hf.
  - split; [right | left].
    + cbn [setQty]. apply foundQty_setQty_same, Hh.
    + rewrite !findIndex_setQty. exact Hf.
  - split; [left | right].
    + rewrite !findIndex_setQty. exact Hh.
    + apply foundQty_setQty_same. rewrite findIndex_setQty. exact Hf.
  - split; left; rewrite !findIndex_setQty; assumption.
Qed.

(** C1, as the code has it.  A change of the hood or fan count that
    changes the count re-derives both quantities whether or not pricing
    has been touched: afterwards the "Additional Hood" entry, if there is
    one, holds [max(hoods - 1, 0)] and the "Additional Fan" entry holds
    [max(fans - 1, 0)].  The flag is left as it was, and it gates the
    filter quantities only: they are kept when it is set and overwritten
    with the filter count when it is not. *)
Theorem count_change_rederives e s s' :
  isCountChange e = true ->
  step e s = Ok s' ->
  Num.same (hoods s) (hoods s') && Num.same (fans s) (fans s') = false ->
  derivedQty "additional hood" (hoods s') s'
  /\ derivedQty "additional fan" (fans s') s'
  /\ pricingTouched s' = pricingTouched s
  /\ (pricingTouched s = true ->
      stdFilterQty s' = stdFilterQty s /\ filterExchangeQty s' = filterExchangeQty s)
  /\ (pricingTouched s = false ->
      stdFilterQty s' = VNum (filters s) /\ filterExchangeQty s' = VNum (filters s)).
Proof.
  intros He Hstep Hchanged. unfold step in Hstep.
  apply bind_Ok in Hstep as (s1 & Hh & Hstep).
  assert (Hs1 : pricingTouched s1 = pricingTouched s /\ filters s1 = filters s
                /\ additionalItems s1 = additionalItems s
                /\ stdFilterQty s1 = stdFilterQty s
                /\ filterExchangeQty s1 = filterExchangeQty s).
  { destruct e; try discriminate He; injection Hh as <-; repeat split. }
  destruct Hs1 as (Ht & Hfl & Hit & Hsq & Hfq).
  assert (Hcounts : Num.same (hoods s) (hoods s1) && Num.same (fans s) (fans s1) = false
                    -> depsChanged e s s1 = true).
  { unfold depsChanged. intros H.
    destruct (Num.same (hoods s) (hoods s1)); [ | reflexivity].
    destruct (Num.same (fans s) (fans s1)); [discriminate H | reflexivity]. }
  destruct (depsChanged e s s1) eqn:Hd.
  - unfold deriveQuantities in Hstep.
    destruct (deriveItems_quantities (hoods s1) (fans s1) (cleaningFrequency s1)
                (additionalItems s1)) as (items & Hitems & Hhood & Hfan).
    rewrite Hitems in Hstep. cbn [mbind result_bind] in Hstep. injection Hstep as <-.
    unfold derivedQty, qtyOf.
    cbn [hoods fans filters additionalItems stdFilterQty filterExchangeQty pricingTouched].
    rewrite Ht, Hfl, Hsq, Hfq.
    repeat apply conj; try assumption; try reflexivity.
    + intros ->. split; reflexivity.
    + intros ->. split; reflexivity.
  - injection Hstep as ->. specialize (Hcounts Hchanged). congruence.
Qed.

Lemma count_change_rederives_witness :
  derivedQty "additional hood" (hoods fiveState) fiveState
  /\ derivedQty "additional fan" (fans fiveState) fiveState
  /\ pricingTouched fiveState = pricingTouched touchedState
  /\ (pricingTouched touchedState = true ->
      stdFilterQty fiveState = stdFilterQty touchedState
      /\ filterExchangeQty fiveState = filterExchangeQty touchedState)
  /\ (pricingTouched touchedState = false ->
      stdFilterQty fiveState = VNum (filters touchedState)
      /\ filterExchangeQty fiveState = VNum (filters touchedState)).
Proof.
  apply (count_change_rederives (ChangeHoods "5") touchedState fiveState).
  - reflexivity.
  - vm_compute. reflexivity.
  - vm_compute. reflexivity.
Defined.

(** As the specification states it, C1 fails: the state reached from mount by a pricing
    update from the proposal preview has the flag set and an "Additional
    Hood" quantity of 0, and changing the hood count to 5 in it rewrites
    that quantity to 4. *)
Lemma touched_hood_change_rewrites_quantity :
  reachable touchedState
  /\ pricingTouched touchedState = true
  /\ qtyOf "additional hood" touchedState = num 0
  /\ step (ChangeHoods "5") touchedState = Ok fiveState
  /\ qtyOf "additional hood" fiveState = num 4.
Proof.
  repeat apply conj.
  - apply (reach_step (Storage (obj [("baseRate", num 800)])) mountedState).
    + apply reach_mount. vm_compute. reflexivity.
    + vm_compute. reflexivity.
  - reflexivity.
  - vm_compute. reflexivity.
  - vm_compute. reflexivity.
  - vm_compute. reflexivity.
Qed.

End Derived.

(** ** More on the normalisers *)

Module NormalizeMore.
Import JS Draft Spec Shape JSFacts CoerceFacts Normalize.




(** X2.  [normalizeRepairs] is idempotent: an object that carries the list
    it returned under [repairs] normalises to that same list, whatever its
    other fields are. *)
Theorem normalizeRepairs_idempotent draft reps (m : gmap string value) :
  normalizeRepairs draft = Ok reps ->
  prop (VObj m) "repairs" = VArr reps ->
  normalizeRepairs (VObj m) = Ok reps.
Proof.
  intros H Hm.
  assert (Hn : nullish draft = false).
  { unfold normalizeRepairs in H. apply bind_Ok in H as (v & Hv & _).
    apply get_Ok_inv in Hv as [Hn _]. exact Hn. }
  destruct (normalizeRepairs_canonical draft Hn) as (reps' & H' & Hne & Hc).
  rewrite H in H'. injection H' as <-.
  apply normalizeRepairs_fixed_at; assumption.
Qed.

Lemma normalizeRepairs_idempotent_witness :
  normalizeRepairs (obj [("repairs", VArr [Spec.emptyRepair])]) = Ok [Spec.emptyRepair].
Proof.
  apply (normalizeRepairs_idempotent (obj []) [Spec.emptyRepair]); reflexivity.
Defined.










End NormalizeMore.

(** ** More on applyDefaults *)

Module DefaultsMore.
Import JS Draft Spec Shape JSFacts CoerceFacts Normalize Defaults Totals.















End DefaultsMore.

(** ** More on computeTotals *)

Module TotalsMore.
Import JS Draft Spec Shape JSFacts CoerceFacts Normalize Defaults Totals.





Lemma totals_baseRate draft t :
  computeTotals draft = Ok t ->
  nullish draft = false
  /\ baseRate t = orDefault (prop draft "baseRate") DEFAULT.baseRate
  /\ fuelSubtotal t = orDefault (prop draft "fuelSurcharge") DEFAULT.fuelSurcharge.
Proof.
  intros H. unfold computeTotals in H.
  apply bind_Ok in H as (ai & Hai & H). apply get_Ok_inv in Hai as [Hn ->].
  apply bind_Ok in H as (items & _ & H).
  apply bind_Ok in H as (sub & _ & H).
  apply bind_Ok in H as (rp & _ & H).
  apply bind_Ok in H as (reps & _ & H).
  apply bind_Ok in H as (rsub & _ & H).
  injection H as <-. cbn [baseRate fuelSubtotal].
  rewrite !(get_opt_prop _ _ Hn). auto.
Qed.

Lemma rate_raw_vs_defaulted v def :
  Num.isFinite def = true -> def <> Num.of_Z 0 ->
  let v' := if unset v then VNum def else v in
  (orDefault v' def = orDefault v def <-> nullOrEmpty v = false)
  /\ (nullOrEmpty v = true -> orDefault v def = Num.of_Z 0 /\ orDefault v' def = def).
Proof.
  intros Hd Hnz. cbv zeta.
  destruct v as [ | | b | x | s | l | m]; cbn [unset nullish is_empty_string orb nullOrEmpty].
  - split; [split; [reflexivity | ] | discriminate].
    intros _. rewrite (orDefault_number _ _ Hd). reflexivity.
  - rewrite (orDefault_number _ _ Hd). change (orDefault VNull def) with (Num.of_Z 0).
    split; [split; [contradiction | discriminate] | auto].
  - split; [split; reflexivity | discriminate].
  - split; [split; reflexivity | discriminate].
  - unfold Str.eqb. destruct (String.eqb_spec s EmptyString) as [-> | Hs].
    + rewrite (orDefault_number _ _ Hd).
      change (orDefault (VStr EmptyString) def) with (Num.of_Z 0).
      split; [split; [contradiction | discriminate] | auto].
    + split; [split; reflexivity | discriminate].
  - split; [split; reflexivity | discriminate].
  - split; [split; reflexivity | discriminate].
Qed.

(** X10.  [computeTotals] and [applyDefaults] disagree on a rate that is
    [null] or the empty string: read from the raw draft such a base rate
    or fuel surcharge counts as 0, read after [applyDefaults] it is the
    default; on every other value, [undefined] included, the two readings
    agree. *)
Theorem empty_rate_raw_vs_defaulted (d : gmap string value) t d' t' :
  computeTotals (VObj d) = Ok t ->
  applyDefaults (VObj d) = Ok d' ->
  computeTotals d' = Ok t' ->
  (baseRate t' = baseRate t <-> nullOrEmpty (prop (VObj d) "baseRate") = false)
  /\ (nullOrEmpty (prop (VObj d) "baseRate") = true ->
      baseRate t = Num.of_Z 0 /\ baseRate t' = DEFAULT.baseRate)
  /\ (fuelSubtotal t' = fuelSubtotal t
      <-> nullOrEmpty (prop (VObj d) "fuelSurcharge") = false)
  /\ (nullOrEmpty (prop (VObj d) "fuelSurcharge") = true ->
      fuelSubtotal t = Num.of_Z 0 /\ fuelSubtotal t' = DEFAULT.fuelSurcharge).
Proof.
  intros Ht Hd Ht'.
  destruct (applyDefaults_rate "baseRate" d ltac:(repeat constructor)) as (d1 & H1 & Hb).
  destruct (applyDefaults_rate "fuelSurcharge" d ltac:(repeat constructor))
    as (d2 & H2 & Hf).
  rewrite Hd in H1, H2. injection H1 as ->. injection H2 as <-.
  destruct (totals_baseRate _ _ Ht) as (_ & -> & ->).
  destruct (totals_baseRate _ _ Ht') as (_ & -> & ->).
  rewrite Hb, Hf.
  change (prop (VObj DEFAULT_RATES) "baseRate") with (VNum DEFAULT.baseRate).
  change (prop (VObj DEFAULT_RATES) "fuelSurcharge") with (VNum DEFAULT.fuelSurcharge).
  destruct (rate_raw_vs_defaulted (prop (VObj d) "baseRate") DEFAULT.baseRate
              eq_refl ltac:(discriminate)) as [Hb1 Hb2].
  destruct (rate_raw_vs_defaulted (prop (VObj d) "fuelSurcharge") DEFAULT.fuelSurcharge
              eq_refl ltac:(discriminate)) as [Hf1 Hf2].
  exact (conj Hb1 (conj Hb2 (conj Hf1 Hf2))).
Qed.

Lemma empty_rate_raw_vs_defaulted_witness :
  exists t t',
    computeTotals (obj [("baseRate", VNull)]) = Ok t
    /\ (d' ← applyDefaults (obj [("baseRate", VNull)]); computeTotals d') = Ok t'
    /\ baseRate t = Num.of_Z 0 /\ baseRate t' = DEFAULT.baseRate.
Proof.
  eexists _, _. split; [vm_compute; reflexivity | ]. split; [vm_compute; reflexivity | ].
  refine (proj1 (proj2 (empty_rate_raw_vs_defaulted
                          (list_to_map [("baseRate", VNull)]) _ _ _ _ _ _)) _).
  - vm_compute. reflexivity.
  - vm_compute. reflexivity.
  - vm_compute. reflexivity.
  - reflexivity.
Defined.

Lemma priced_field_ne k :
  k ∉ pricedFields ->
  Forall (fun k' => k <> k') pricedFields.
Proof.
  intros Hk. apply Forall_forall. intros k' Hk' ->. contradiction.
Qed.

Lemma computeTotals_insert_other (d : gmap string value) k v :
  k ∉ pricedFields ->
  computeTotals (VObj (<[k := v]> d)) = computeTotals (VObj d).
Proof.
  intros Hk. apply priced_field_ne in Hk. unfold pricedFields in Hk.
  repeat match type of Hk with
         | Forall _ (_ :: _) => apply Forall_cons_1 in Hk as [? Hk]
         end.
  unfold computeTotals, normalizeAdditionalItems, normalizeRepairs, get, get_opt.
  cbn [nullish or truthy].
  rewrite !(prop_insert_ne d k _ v) by assumption.
  reflexivity.
Qed.

(** X11.  [computeTotals] reads sixteen properties of the draft and nothing
    else: setting any other field (the restaurant name, the address, the
    proposal date, the counts of the form) changes neither the totals nor
    whether it throws. *)
Theorem computeTotals_ignores_other_fields (d : gmap string value) k v :
  k ∉ pricedFields ->
  computeTotals (VObj (<[k := v]> d)) = computeTotals (VObj d).
Proof. apply computeTotals_insert_other. Qed.

Lemma computeTotals_ignores_other_fields_witness :
  computeTotals (VObj (<["restaurantName" := VStr "Mario"]> ∅)) = computeTotals (VObj ∅).
Proof.
  apply computeTotals_ignores_other_fields. vm_compute. intros H.
  repeat (apply elem_of_cons in H as [H | H]; [discriminate | ]).
  apply elem_of_nil in H. exact H.
Defined.

End TotalsMore.

(** ** More on mergeDraft *)

Module MergeMore.
Import JS Draft Spec Shape JSFacts Merge.

Lemma mergeDraft_objects prev incoming :
  mergeDraft prev incoming = mergeDraft (VObj (spread prev)) (VObj (entries incoming)).
Proof.
  unfold mergeDraft, entries, spread. cbn [or truthy typeof_object negb orb own].
  destruct (negb (truthy incoming) || negb (typeof_object incoming)); [ | reflexivity].
  rewrite map_fold_empty. reflexivity.
Qed.

Lemma mergeDraft_lookup_any prev incoming :
  exists out, mergeDraft prev incoming = VObj out
    /\ forall k, out !! k = match entries incoming !! k with
                            | Some v => if is_undefined v then spread prev !! k else Some v
                            | None => spread prev !! k
                            end.
Proof.
  rewrite mergeDraft_objects. apply mergeDraft_lookup.
Qed.

Lemma spread_obj (m : gmap string value) : spread (VObj m) = m.
Proof. reflexivity. Qed.


(** X12.  Merging the same incoming draft a second time changes nothing,
    whatever the two arguments are. *)
Theorem mergeDraft_idempotent prev incoming :
  mergeDraft (mergeDraft prev incoming) incoming = mergeDraft prev incoming.
Proof.
  destruct (mergeDraft_lookup_any prev incoming) as (o1 & -> & H1).
  destruct (mergeDraft_lookup_any (VObj o1) incoming) as (o2 & -> & H2).
  f_equal. apply map_eq. intros k. rewrite H2, spread_obj, H1.
  destruct (entries incoming !! k) as [v | ]; [destruct (is_undefined v) | ]; reflexivity.
Qed.


(** X14.  [mergeDraft] never wipes state: the result is an object for all
    arguments, every key of [prev] is still a key of it, a field of [prev]
    that is not [undefined] is not [undefined] afterwards, and an
    [incoming] that is [null], [undefined] or not an object is ignored. *)
Theorem mergeDraft_keeps_prev prev incoming :
  exists out, mergeDraft prev incoming = VObj out
    /\ (forall k, is_Some (spread prev !! k) -> is_Some (out !! k))
    /\ (forall k, is_undefined (prop (VObj (spread prev)) k) = false ->
                  is_undefined (prop (VObj out) k) = false)
    /\ (negb (truthy incoming) || negb (typeof_object incoming) = true ->
        out = spread prev).
Proof.
  destruct (mergeDraft_lookup_any prev incoming) as (out & H & Hl).
  exists out. split; [exact H | ]. split; [ | split].
  - intros k Hk. rewrite Hl.
    destruct (entries incoming !! k) as [v | ]; [destruct (is_undefined v) | ]; eauto.
  - intros k. rewrite !prop_obj, Hl.
    destruct (entries incoming !! k) as [v | ]; [destruct (is_undefined v) eqn:E | ];
      auto.
  - intros Hi. apply map_eq. intros k. rewrite Hl. unfold entries. rewrite Hi.
    rewrite lookup_empty. reflexivity.
Qed.

Lemma mergeDraft_keeps_prev_witness :
  exists out, mergeDraft (obj [("baseRate", num 100)]) VNull = VObj out
              /\ out = spread (obj [("baseRate", num 100)]).
Proof.
  destruct (mergeDraft_keeps_prev (obj [("baseRate", num 100)]) VNull)
    as (out & H & _ & _ & Hi).
  exists out. split; [exact H | ]. apply Hi. reflexivity.
Defined.

End MergeMore.

(** ** More on the inspection form *)

Module FormMore.
Import JS Draft App Scenario Spec JSFacts Derived.

Lemma SFcompare_antisym x y : SFcompare y x = option_map CompOpp (SFcompare x y).
Proof.
  destruct x as [sx | sx | | sx mx ex], y as [sy | sy | | sy my ey]; cbn [SFcompare option_map];
    try reflexivity; try (destruct sx; reflexivity); try (destruct sy; reflexivity);
    try (destruct sx, sy; reflexivity).
  destruct sx, sy; cbn [CompOpp]; try reflexivity.
  - rewrite (Z.compare_antisym ex ey). destruct (ex ?= ey)%Z; cbn [CompOpp]; try reflexivity.
    rewrite (ZC4 my mx). reflexivity.
  - rewrite (Z.compare_antisym ex ey). destruct (ex ?= ey)%Z; cbn [CompOpp]; try reflexivity.
    f_equal. apply ZC4.
Qed.

Lemma toInt_finite text : Num.isFinite (toInt text) = true.
Proof.
  unfold toInt. destruct (Num.isFinite (parseInt10 text)) eqn:E; [exact E | reflexivity].
Qed.

Lemma max_one x :
  Num.isFinite x = true ->
  Num.isFinite (Num.max (Num.of_Z 1) x) = true
  /\ Num.ltb (Num.max (Num.of_Z 1) x) (Num.of_Z 1) = false.
Proof.
  intros Hx. unfold Num.max, Num.ltb, SFltb.
  destruct (SFcompare (Num.of_Z 1) x) as [[ | | ] | ] eqn:E.
  - split; reflexivity.
  - split; [exact Hx | ]. rewrite (SFcompare_antisym (Num.of_Z 1) x), E. reflexivity.
  - split; reflexivity.
  - destruct x; discriminate.
Qed.

Lemma deriveQuantities_fields s :
  exists s', deriveQuantities s = Ok s'
    /\ hoods s' = hoods s /\ fans s' = fans s /\ filters s' = filters s
    /\ pricingTouched s' = pricingTouched s
    /\ stdFilterQty s' = (if pricingTouched s then stdFilterQty s else VNum (filters s))
    /\ filterExchangeQty s'
       = (if pricingTouched s then filterExchangeQty s else VNum (filters s)).
Proof.
  unfold deriveQuantities.
  destruct (deriveItems_quantities (hoods s) (fans s) (cleaningFrequency s)
              (additionalItems s)) as (items & -> & _).
  cbn [mbind result_bind]. eexists. split; [reflexivity | ]. repeat split.
Qed.

Lemma step_fields e s s1 :
  handle e s = Ok s1 ->
  exists s', step e s = Ok s'
    /\ hoods s' = hoods s1 /\ fans s' = fans s1 /\ filters s' = filters s1
    /\ pricingTouched s' = pricingTouched s1
    /\ (depsChanged e s s1 = false -> s' = s1)
    /\ (depsChanged e s s1 = true ->
        stdFilterQty s' = (if pricingTouched s1 then stdFilterQty s1 else VNum (filters s1))
        /\ filterExchangeQty s'
           = (if pricingTouched s1 then filterExchangeQty s1 else VNum (filters s1))).
Proof.
  intros Hh. unfold step. rewrite Hh. cbn [mbind result_bind].
  destruct (depsChanged e s s1).
  - destruct (deriveQuantities_fields s1) as (s' & -> & Hho & Hfa & Hfi & Ht & Hs & Hf).
    exists s'. repeat apply conj; try assumption; try reflexivity.
    + discriminate.
    + intros _. split; assumption.
  - exists s1. repeat apply conj; try reflexivity; discriminate.
Qed.

(** X15.  A change of one of the three count inputs never fails.  The hood
    and fan counts it leaves are finite and not below 1 whatever text was
    typed, the filter count is finite, and the two other counts are as
    they were. *)
Theorem count_inputs_return text s :
  (exists s', step (ChangeHoods text) s = Ok s'
     /\ Num.isFinite (hoods s') = true /\ Num.ltb (hoods s') (Num.of_Z 1) = false
     /\ fans s' = fans s /\ filters s' = filters s)
  /\ (exists s', step (ChangeFans text) s = Ok s'
     /\ Num.isFinite (fans s') = true /\ Num.ltb (fans s') (Num.of_Z 1) = false
     /\ hoods s' = hoods s /\ filters s' = filters s)
  /\ (exists s', step (ChangeFilters text) s = Ok s'
     /\ Num.isFinite (filters s') = true
     /\ hoods s' = hoods s /\ fans s' = fans s).
Proof.
  destruct (max_one (toInt text) (toInt_finite text)) as [Hfin Hge].
  split; [ | split].
  - destruct (step_fields (ChangeHoods text) s _ eq_refl)
      as (s' & H & Hho & Hfa & Hfi & _).
    exists s'. rewrite Hho, Hfa, Hfi. auto.
  - destruct (step_fields (ChangeFans text) s _ eq_refl)
      as (s' & H & Hho & Hfa & Hfi & _).
    exists s'. rewrite Hho, Hfa, Hfi. auto.
  - destruct (step_fields (ChangeFilters text) s _ eq_refl)
      as (s' & H & Hho & Hfa & Hfi & _).
    exists s'. rewrite Hho, Hfa, Hfi. split; [exact H | ].
    split; [apply toInt_finite | auto].
Qed.

Lemma onStorage_fields incoming s s1 :
  onStorage incoming s = Ok s1 ->
  nullish incoming = false
  /\ pricingTouched s1 = true
  /\ stdFilterQty s1
     = (if is_undefined (prop incoming "stdFilterQty") then stdFilterQty s
        else prop incoming "stdFilterQty")
  /\ filterExchangeQty s1
     = (if is_undefined (prop incoming "filterExchangeQty") then filterExchangeQty s
        else prop incoming "filterExchangeQty").
Proof.
  intros H. unfold onStorage in H.
  apply bind_Ok in H as (r & Hr & H). apply get_Ok_inv in Hr as [Hn _].
  apply bind_Ok in H as ([[items' hoods'] fans'] & _ & H).
  injection H as <-. repeat split. exact Hn.
Qed.

(** X16.  A storage event that the listener survives sets
    [pricingTouched], and the effect that follows it leaves the two filter
    quantities to the incoming draft: each is the incoming value when that
    is not [undefined] and the previous one otherwise, also when the event
    changed the filter count. *)
Theorem storage_event_touches incoming s s' :
  step (Storage incoming) s = Ok s' ->
  pricingTouched s' = true
  /\ stdFilterQty s'
     = (if is_undefined (prop incoming "stdFilterQty") then stdFilterQty s
        else prop incoming "stdFilterQty")
  /\ filterExchangeQty s'
     = (if is_undefined (prop incoming "filterExchangeQty") then filterExchangeQty s
        else prop incoming "filterExchangeQty").
Proof.
  intros H.
  assert (Hh : exists s1, handle (Storage incoming) s = Ok s1).
  { unfold step in H. apply bind_Ok in H as (s1 & Hs1 & _). eauto. }
  destruct Hh as (s1 & Hh).
  destruct (onStorage_fields _ _ _ Hh) as (_ & Ht & Hs & Hf).
  destruct (step_fields _ _ _ Hh) as (s2 & H2 & _ & _ & _ & Ht2 & Hsame & Hrun).
  rewrite H in H2. injection H2 as <-.
  rewrite Ht2, Ht. split; [reflexivity | ].
  destruct (depsChanged (Storage incoming) s s1).
  - destruct (Hrun eq_refl) as [-> ->]. rewrite Ht. auto.
  - rewrite (Hsame eq_refl). auto.
Qed.

Lemma storage_event_touches_witness :
  pricingTouched touchedState = true
  /\ stdFilterQty touchedState = stdFilterQty mountedState
  /\ filterExchangeQty touchedState = filterExchangeQty mountedState.
Proof.
  apply (storage_event_touches (obj [("baseRate", num 800)]) mountedState touchedState).
  vm_compute. reflexivity.
Defined.

(** X17.  Among the count inputs and storage events nothing clears
    [pricingTouched], and once it is set a count input leaves the standard
    filter quantity and the filter exchange quantity alone. *)
Theorem touched_is_permanent e s s' :
  step e s = Ok s' ->
  pricingTouched s = true ->
  pricingTouched s' = true
  /\ match e with
     | Storage _ => True
     | _ => stdFilterQty s' = stdFilterQty s /\ filterExchangeQty s' = filterExchangeQty s
     end.
Proof.
  intros H Ht. destruct e as [text | text | text | incoming].
  4: { split; [ | exact I]. eapply storage_event_touches, H. }
  all: match type of H with
       | step ?e _ = _ =>
           destruct (step_fields e s _ eq_refl)
             as (s2 & H2 & _ & _ & _ & Ht2 & Hsame & Hrun)
       end;
    rewrite H in H2; injection H2 as <-;
    cbn [withCounts pricingTouched stdFilterQty filterExchangeQty] in *;
    (split; [congruence | ]);
    match type of Hsame with
    | depsChanged ?e ?s ?s1 = false -> _ => destruct (depsChanged e s s1)
    end;
    [ destruct (Hrun eq_refl) as [-> ->]; rewrite Ht; auto
    | rewrite (Hsame eq_refl); auto ].
Qed.

Lemma touched_is_permanent_witness :
  pricingTouched fiveState = true
  /\ stdFilterQty fiveState = stdFilterQty touchedState
     /\ filterExchangeQty fiveState = filterExchangeQty touchedState.
Proof.
  apply (touched_is_permanent (ChangeHoods "5") touchedState fiveState).
  - vm_compute. reflexivity.
  - reflexivity.
Defined.

(** X18.  From mount on, through count inputs and storage events, the
    form keeps this invariant: while [pricingTouched] is not set, the
    standard filter quantity and the filter exchange quantity are the
    filter count. *)
Theorem untouched_filters_mirrored s :
  reachable s ->
  pricingTouched s = false ->
  stdFilterQty s = VNum (filters s) /\ filterExchangeQty s = VNum (filters s).
Proof.
  induction 1 as [s Hm | e s s' Hr IH Hstep]; intros Ht.
  - destruct (deriveQuantities_fields initial) as (s0 & H0 & _ & _ & Hfi & _ & Hs & Hf).
    rewrite Hm in H0. injection H0 as <-. rewrite Hs, Hf, Hfi. auto.
  - destruct e as [text | text | text | incoming].
    4: { apply storage_event_touches in Hstep as [Ht' _]. congruence. }
    all: match type of Hstep with
         | step ?e _ = _ =>
             destruct (step_fields e s _ eq_refl)
               as (s2 & H2 & _ & _ & Hfi & Ht2 & Hsame & Hrun)
         end;
      rewrite Hstep in H2; injection H2 as <-;
      cbn [withCounts pricingTouched stdFilterQty filterExchangeQty filters] in *;
      rewrite Ht2 in Ht; specialize (IH Ht);
      match type of Hsame with
      | depsChanged ?e ?s ?s1 = false -> _ => destruct (depsChanged e s s1) eqn:Hd
      end;
      [ destruct (Hrun eq_refl) as [-> ->]; rewrite Ht, Hfi; auto
      | rewrite (Hsame eq_refl);
        cbn [withCounts pricingTouched stdFilterQty filterExchangeQty filters] ].
    + exact IH.
    + exact IH.
    + unfold depsChanged in Hd. cbn [withCounts hoods fans filters pricingTouched] in Hd.
      destruct (Num.same (hoods s) (hoods s)); [ | discriminate Hd].
      destruct (Num.same (fans s) (fans s)); [ | discriminate Hd].
      unfold Num.same in Hd. destruct (Num.eq_dec (filters s) (toInt text)) as [<- | ];
        [exact IH | discriminate Hd].
Qed.

Lemma untouched_filters_mirrored_witness :
  stdFilterQty mountedState = VNum (filters mountedState)
  /\ filterExchangeQty mountedState = VNum (filters mountedState).
Proof.
  apply (untouched_filters_mirrored mountedState).
  - apply reach_mount. vm_compute. reflexivity.
  - reflexivity.
Defined.

End FormMore.

(** ** Reading and publishing the stored draft *)

Module StoreMore.
Import JS Draft App Spec Shape JSFacts Normalize Totals Defaults DefaultsMore MergeMore.

Section Parse.
Variable parse : string -> option value.



End Parse.


(** X20.  When the storage is blocked or its text does not parse,
    [readDraft] returns the blank draft: the six default rates, one empty
    repair, an "Additional Hood" and an "Additional Fan" entry of
    quantity 0 and both initial quantities 1.  A missing key and an empty
    text are read as the text of the empty object. *)
Theorem readDraft_fallback (parse : string -> option value) slot :
  (Store.stored parse slot = None -> Store.readDraft parse slot = Ok blankDraft)
  /\ Store.readDraft parse Store.Blocked = Ok blankDraft
  /\ Store.readDraft parse Store.Missing = Store.readDraft parse (Store.Holds "{}")
  /\ Store.readDraft parse (Store.Holds EmptyString)
     = Store.readDraft parse (Store.Holds "{}").
Proof.
  split; [ | split; [ | split]].
  - intros H. unfold Store.readDraft. rewrite H. vm_compute. reflexivity.
  - vm_compute. reflexivity.
  - reflexivity.
  - reflexivity.
Qed.

Lemma readDraft_fallback_witness :
  Store.readDraft (fun _ => None) (Store.Holds "{oops") = Ok blankDraft.
Proof.
  apply (proj1 (readDraft_fallback (fun _ => None) (Store.Holds "{oops"))). reflexivity.
Defined.

End StoreMore.

Module PublishMore.
Import JS Draft App Spec Shape JSFacts Normalize Totals Defaults DefaultsMore MergeMore.
Import StoreMore NormalizeMore.













End PublishMore.

(** ** The proposal preview: editing the draft *)

Module PreviewMore.
Import JS Draft Spec Shape JSFacts Normalize NormalizeMore TotalsMore DefaultsMore.
Import StoreMore.

Lemma blankRepair_isRepair : isRepair Preview.blankRepair.
Proof. exists EmptyString, (Num.of_Z 0). split; reflexivity. Qed.

Lemma normalizeRepairs_Ok draft reps :
  normalizeRepairs draft = Ok reps ->
  nullish draft = false /\ reps <> [] /\ Forall isRepair reps.
Proof.
  intros H.
  assert (Hn : nullish draft = false).
  { unfold normalizeRepairs in H. apply bind_Ok in H as (v & Hv & _).
    apply get_Ok_inv in Hv as [Hn _]. exact Hn. }
  destruct (normalizeRepairs_canonical draft Hn) as (reps' & H' & Hne & Hc).
  rewrite H in H'. injection H' as <-. auto.
Qed.

Lemma app_not_nil {A : Type} (l : list A) x : l ++ [x] <> [].
Proof. destruct l; discriminate. Qed.

(** X23.  Adding a repair appends one blank entry to the normalised list,
    which normalises to itself, and removing the entry just added gives
    the list before the addition back; no other field of the draft
    changes. *)
Theorem addRepair_then_remove p reps :
  normalizeRepairs p = Ok reps ->
  exists p1 p2,
    Preview.addRepair p = Ok p1
    /\ prop p1 "repairs" = VArr (reps ++ [Preview.blankRepair])
    /\ normalizeRepairs p1 = Ok (reps ++ [Preview.blankRepair])
    /\ Preview.removeRepair (length reps) p1 = Ok p2
    /\ prop p2 "repairs" = VArr reps
    /\ (forall k, k <> "repairs" -> prop p2 k = prop (VObj (own p)) k).
Proof.
  intros H. destruct (normalizeRepairs_Ok _ _ H) as (Hn & Hne & Hc).
  unfold Preview.addRepair. rewrite H. cbn [mbind result_bind].
  set (m1 := <["repairs" := VArr (reps ++ [Preview.blankRepair])]> (own p)).
  assert (Hfix : normalizeRepairs (VObj m1) = Ok (reps ++ [Preview.blankRepair])).
  { apply normalizeRepairs_fixed_at.
    - apply prop_insert_eq.
    - apply app_not_nil.
    - apply Forall_app. split; [exact Hc | ].
      apply Forall_cons_2; [apply blankRepair_isRepair | apply Forall_nil_2]. }
  exists (VObj m1). eexists. split; [reflexivity | ].
  split; [apply prop_insert_eq | ]. split; [exact Hfix | ].
  unfold Preview.removeRepair. rewrite Hfix. cbn [mbind result_bind own].
  rewrite delete_middle, app_nil_r.
  destruct reps as [ | r reps]; [contradiction | ].
  split; [reflexivity | ]. split; [apply prop_insert_eq | ].
  intros k Hk. unfold m1. rewrite !prop_insert_ne by congruence. reflexivity.
Qed.

Lemma addRepair_then_remove_witness :
  exists p1 p2,
    Preview.addRepair (obj []) = Ok p1
    /\ prop p1 "repairs" = VArr ([emptyRepair] ++ [Preview.blankRepair])
    /\ normalizeRepairs p1 = Ok ([emptyRepair] ++ [Preview.blankRepair])
    /\ Preview.removeRepair (length [emptyRepair]) p1 = Ok p2
    /\ prop p2 "repairs" = VArr [emptyRepair]
    /\ (forall k, k <> "repairs" -> prop p2 k = prop (VObj (own (obj []))) k).
Proof. apply (addRepair_then_remove (obj []) [emptyRepair]). reflexivity. Defined.



Lemma setField_in_range idx field v (l : list value) :
  (idx < length l)%nat ->
  let l' := Preview.setField idx field v l in
  length l' = length l
  /\ (forall j, j <> idx -> l' !! j = l !! j)
  /\ l' !! idx = Some (VObj (<[field := v]> (own (Preview.entryAt idx l)))).
Proof.
  intros Hlt. cbv zeta. unfold Preview.setField, Preview.assign.
  destruct (Nat.ltb_spec idx (length l)) as [_ | Hge]; [ | lia].
  split; [apply length_insert | ]. split.
  - intros j Hj. apply list_lookup_insert_ne. congruence.
  - apply list_lookup_insert_eq, Hlt.
Qed.

(** X25.  Editing a field of the repair at an index inside the list
    changes that field of that entry and nothing else: the list keeps its
    length, the other entries and the other fields of the entry are as
    they were, an amount is stored as given and any other field as its
    string.  After an edit of the description the list is still in
    canonical shape. *)
Theorem updateRepair_in_range idx field val p reps :
  normalizeRepairs p = Ok reps ->
  (idx < length reps)%nat ->
  exists p' l,
    Preview.updateRepair idx field val p = Ok p'
    /\ prop p' "repairs" = VArr l
    /\ length l = length reps
    /\ (forall j, j <> idx -> l !! j = reps !! j)
    /\ prop (Preview.entryAt idx l) field
       = (if Str.eqb field "amount" then val else VStr (to_string val))
    /\ (forall f, f <> field ->
          prop (Preview.entryAt idx l) f = prop (Preview.entryAt idx reps) f)
    /\ (field = "description" -> Forall isRepair l).
Proof.
  intros H Hlt. destruct (normalizeRepairs_Ok _ _ H) as (Hn & Hne & Hc).
  unfold Preview.updateRepair. rewrite H. cbn [mbind result_bind].
  set (v := if Str.eqb field "amount" then val else VStr (to_string val)).
  destruct (setField_in_range idx field v reps Hlt) as (Hlen & Hother & Hidx).
  set (l := Preview.setField idx field v reps) in *.
  destruct (lookup_lt_is_Some_2 reps idx Hlt) as (r & Hr).
  assert (Hrr : isRepair r) by (eapply Forall_lookup_1; [exact Hc | exact Hr]).
  destruct Hrr as (s & x & -> & Hx).
  assert (He : Preview.entryAt idx reps = obj [("description", VStr s); ("amount", VNum x)]).
  { unfold Preview.entryAt. rewrite Hr. reflexivity. }
  assert (Hnew : Preview.entryAt idx l
                 = VObj (<[field := v]>
                           (own (obj [("description", VStr s); ("amount", VNum x)])))).
  { unfold Preview.entryAt at 1. rewrite Hidx, He. reflexivity. }
  eexists _, l. split; [reflexivity | ]. split; [apply prop_insert_eq | ].
  split; [exact Hlen | ]. split; [exact Hother | ].
  split; [rewrite Hnew; apply prop_insert_eq | ].
  split.
  - intros f Hf. rewrite Hnew, He. apply prop_insert_ne. congruence.
  - intros ->. apply Forall_lookup_2. intros j y Hy.
    destruct (decide (j = idx)) as [-> | Hj].
    + rewrite Hidx, He in Hy. injection Hy as <-.
      exists (to_string val), x. split; [ | exact Hx].
      unfold obj. cbn [own list_to_map foldr fst snd curry uncurry].
      unfold v. cbn [Str.eqb]. f_equal; apply insert_insert_eq.
    + rewrite (Hother j Hj) in Hy. eapply Forall_lookup_1; [exact Hc | exact Hy].
Qed.

Lemma updateRepair_in_range_witness :
  exists p' l,
    Preview.updateRepair 0 "description" (VStr "Fan belt") (obj []) = Ok p'
    /\ prop p' "repairs" = VArr l
    /\ length l = length [emptyRepair]
    /\ (forall j, j <> 0%nat -> l !! j = [emptyRepair] !! j)
    /\ prop (Preview.entryAt 0 l) "description"
       = (if Str.eqb "description" "amount" then VStr "Fan belt"
          else VStr (to_string (VStr "Fan belt")))
    /\ (forall f, f <> "description" ->
          prop (Preview.entryAt 0 l) f = prop (Preview.entryAt 0 [emptyRepair]) f)
    /\ ("description" = "description" -> Forall isRepair l).
Proof.
  apply (updateRepair_in_range 0 "description" (VStr "Fan belt") (obj []) [emptyRepair]).
  - reflexivity.
  - cbn [length]. lia.
Defined.




Lemma numberOr0_not_NaN v : Num.isNaN (App.numberOr0 v) = false.
Proof.
  unfold App.numberOr0. cbn [truthy].
  destruct (to_number v); reflexivity.
Qed.

(** X27.  A quantity or a rate edited in the preview is stored as a number
    that is never NaN, whatever was typed: a value that does not convert
    is stored as 0.  The edit keeps the length of the list and leaves the
    other entries alone. *)
Theorem updateAdditionalItem_number idx field val p items :
  normalizeAdditionalItems p = Ok items ->
  (idx < length items)%nat ->
  field = "qty" \/ field = "rate" ->
  exists p' l x,
    Preview.updateAdditionalItem idx field val p = Ok p'
    /\ prop p' "additionalItems" = VArr l
    /\ length l = length items
    /\ (forall j, j <> idx -> l !! j = items !! j)
    /\ prop (Preview.entryAt idx l) field = VNum x
    /\ Num.isNaN x = false
    /\ (Num.isNaN (to_number val) = true -> x = Num.of_Z 0).
Proof.
  intros H Hlt Hf.
  unfold Preview.updateAdditionalItem. rewrite H. cbn [mbind result_bind].
  assert (Hv : (if Str.eqb field "qty" || Str.eqb field "rate"
                then VNum (App.numberOr0 val) else VStr (to_string val))
               = VNum (App.numberOr0 val)).
  { destruct Hf as [-> | ->]; reflexivity. }
  rewrite Hv.
  destruct (setField_in_range idx field (VNum (App.numberOr0 val)) items Hlt)
    as (Hlen & Hother & Hidx).
  eexists _, _, (App.numberOr0 val). split; [reflexivity | ].
  split; [apply prop_insert_eq | ]. split; [exact Hlen | ]. split; [exact Hother | ].
  split; [ | split; [apply numberOr0_not_NaN | ]].
  - unfold Preview.entryAt at 1. rewrite Hidx. apply prop_insert_eq.
  - unfold App.numberOr0. cbn [truthy]. intros ->. rewrite orb_true_r. reflexivity.
Qed.

Lemma updateAdditionalItem_number_witness :
  exists p' l x,
    Preview.updateAdditionalItem 0 "qty" (VStr "abc") (obj []) = Ok p'
    /\ prop p' "additionalItems" = VArr l
    /\ length l = length [placeholderItem str0]
    /\ (forall j, j <> 0%nat -> l !! j = [placeholderItem str0] !! j)
    /\ prop (Preview.entryAt 0 l) "qty" = VNum x
    /\ Num.isNaN x = false
    /\ (Num.isNaN (to_number (VStr "abc")) = true -> x = Num.of_Z 0).
Proof.
  apply (updateAdditionalItem_number 0 "qty" (VStr "abc") (obj []) [placeholderItem str0]).
  - reflexivity.
  - cbn [length]. lia.
  - left. reflexivity.
Defined.






End PreviewMore.
